(** * bsdmon: a shallow embedding of [src/main.c]

    The C program samples CPU, memory, disk and network figures once and
    prints a report.  Each C function is rendered as a Rocq function of the
    kernel data it reads; the results it writes through pointers become the
    payload of [Ok], and a [return -1] becomes [Fail] carrying the
    diagnostic written to standard error on that path.

    Conventions:
    - [unsigned long long] and [unsigned long] (LP64) are integers [Z]
      reduced modulo [2^64] by [u64];
    - [double] is IEEE 754 binary64 with round-to-nearest-even, as given by
      the Standard Library's [SpecFloat] at precision 53 and [emax] 1024;
    - text read from the kernel is a [string]; [fgets] and [sscanf] follow
      the C library for the formats the program uses. *)

From Stdlib Require Import ZArith Lia List String Ascii Bool QArith Qabs.
From Stdlib Require Import Floats.SpecFloat DecimalString.
From Stdlib Require Strings.Byte.
Import ListNotations.
Open Scope string_scope.
Open Scope Z_scope.

(** ** Machine integers *)

Definition two64 : Z := 2 ^ 64.

(** Conversion to a 64-bit unsigned type. *)
Definition u64 (z : Z) : Z := z mod two64.

Definition ULLONG_MAX : Z := two64 - 1.

(** Conversion to [int] (32 bits, two's complement). *)
Definition to_int (z : Z) : Z :=
  let m := z mod 2 ^ 32 in
  if m <? 2 ^ 31 then m else m - 2 ^ 32.

Definition in_u64 (z : Z) : Prop := 0 <= z < two64.

(** ** Doubles *)

Definition double : Type := spec_float.

(** Conversion of an integer to [double]. *)
Definition double_of_Z (z : Z) : double := binary_normalize 53 1024 z 0 false.

Definition ddiv (x y : double) : double := SFdiv 53 1024 x y.
Definition dmul (x y : double) : double := SFmul 53 1024 x y.
Definition dleb (x y : double) : bool := SFleb x y.

(** The literals [0.0], [1.0], [100.0] and [1024.0]. *)
Definition d0 : double := S754_zero false.
Definition d1 : double := S754_finite false 4503599627370496 (-52).
Definition d100 : double := S754_finite false 7036874417766400 (-46).
Definition d1024 : double := S754_finite false 4503599627370496 (-42).

(** The rational value of a finite double. *)
Definition Q_of_double (x : double) : option Q :=
  match x with
  | S754_zero _ => Some 0%Q
  | S754_finite s m e =>
      let v := match e with
               | Zneg p => Qmake (Zpos m) (2 ^ p)
               | _ => inject_Z (Zpos m * 2 ^ e)
               end in
      Some (if s then Qopp v else v)
  | _ => None
  end.

(** ** Results and diagnostics *)

(** What a failing path writes to standard error before [return -1]. *)
Inductive diagnostic : Type :=
  | Perror (what : string)
  | Eprintf (text : string).

Inductive result (A : Type) : Type :=
  | Ok (a : A)
  | Fail (d : diagnostic).
Arguments Ok {A} a.
Arguments Fail {A} d.

(** The [int] returned by a collector. *)
Definition retcode {A : Type} (r : result A) : Z :=
  match r with
  | Ok _ => 0
  | Fail _ => -1
  end.

(** What was stored through the out-pointers, if anything. *)
Definition stored {A : Type} (r : result A) : option A :=
  match r with
  | Ok a => Some a
  | Fail _ => None
  end.

(** ** CPU time counters *)

Inductive platform : Type := Linux | FreeBSD.

(** [intr] exists under [__FreeBSD__] only; the Linux build never reads it. *)
Record cpu_times_t : Type := {
  user : Z;
  nice : Z;
  system : Z;
  idle : Z;
  intr : Z
}.

Definition active_of (p : platform) (t : cpu_times_t) : Z :=
  match p with
  | FreeBSD => u64 (u64 (u64 (user t + nice t) + system t) + intr t)
  | Linux => u64 (u64 (user t + nice t) + system t)
  end.

Definition total_of (p : platform) (t : cpu_times_t) : Z :=
  u64 (active_of p t + idle t).

Definition calc_cpu_usage (p : platform) (prev curr : cpu_times_t) : double :=
  let prev_active := active_of p prev in
  let curr_active := active_of p curr in
  let prev_total := u64 (prev_active + idle prev) in
  let curr_total := u64 (curr_active + idle curr) in
  let total_delta := u64 (curr_total - prev_total) in
  let active_delta := u64 (curr_active - prev_active) in
  if total_delta =? 0 then d0
  else dmul (ddiv (double_of_Z active_delta) (double_of_Z total_delta)) d100.

(** ** The C library's text input: [fgets] and [sscanf] *)

Definition newline : ascii := Ascii.ascii_of_nat 10.

(** [isspace] in the C locale: space, and the controls 9 to 13. *)
Definition isspace (c : ascii) : bool :=
  let n := Z.of_nat (nat_of_ascii c) in
  (n =? 32) || ((9 <=? n) && (n <=? 13)).

Definition isdigit (c : ascii) : bool :=
  let n := Z.of_nat (nat_of_ascii c) in
  (48 <=? n) && (n <=? 57).

Definition digit_value (c : ascii) : Z := Z.of_nat (nat_of_ascii c) - 48.

(** [fgets_chars room s]: copy characters of [s] until [room] is used up or
    a newline has been copied; the second component is the unread rest. *)
Fixpoint fgets_chars (room : nat) (s : string) : string * string :=
  match room, s with
  | O, _ => ("", s)
  | _, EmptyString => ("", "")
  | S room', String c r =>
      if Ascii.eqb c newline then (String c "", r)
      else let (l, rest) := fgets_chars room' r in (String c l, rest)
  end.

(** [fgets(buf, size, fp)] on a stream whose unread content is [s]: [None]
    at end of file, otherwise at most [size - 1] characters and the rest. *)
Definition fgets (size : nat) (s : string) : option (string * string) :=
  match s with
  | EmptyString => None
  | _ => Some (fgets_chars (size - 1) s)
  end.

(** A format directive: an ordinary character, white space, or an unsigned
    decimal conversion ([%lu] and [%llu] are both 64 bits wide here). *)
Inductive directive : Type :=
  | Lit (c : ascii)
  | Space
  | ConvU.

Fixpoint directives_of (fmt : string) : list directive :=
  match fmt with
  | EmptyString => []
  | String "%" (String "l" (String "l" (String "u" r))) => ConvU :: directives_of r
  | String "%" (String "l" (String "u" r)) => ConvU :: directives_of r
  | String c r => (if isspace c then Space else Lit c) :: directives_of r
  end.

Fixpoint skip_space (s : string) : string :=
  match s with
  | String c r => if isspace c then skip_space r else s
  | EmptyString => s
  end.

(** The longest run of decimal digits at the head of [s], accumulated onto
    [acc], and what follows it. *)
Fixpoint scan_digits (acc : Z) (s : string) : Z * string :=
  match s with
  | String c r =>
      if isdigit c then scan_digits (10 * acc + digit_value c) r else (acc, s)
  | EmptyString => (acc, s)
  end.

(** The value a conversion stores for a digit string of magnitude [v], as
    [strtoull] computes it: [ULLONG_MAX] when the magnitude is out of range,
    whatever the sign; otherwise the magnitude, negated in the unsigned type
    after a minus sign. *)
Definition strtoull_value (neg : bool) (v : Z) : Z :=
  if ULLONG_MAX <? v then ULLONG_MAX
  else if neg then u64 (- v) else v.

Inductive conv_outcome : Type :=
  | Converted (v : Z) (rest : string)
  | MatchingFailure
  | InputFailure.

(** One [%llu] conversion: skip white space, accept an optional sign, then
    require at least one digit. *)
Definition conv_ull (s : string) : conv_outcome :=
  match skip_space s with
  | EmptyString => InputFailure
  | String c r =>
      let neg := Ascii.eqb c "-" in
      let body := if neg || Ascii.eqb c "+" then r else String c r in
      match body with
      | String d _ =>
          if isdigit d
          then let (v, rest) := scan_digits 0 body in
               Converted (strtoull_value neg v) rest
          else MatchingFailure
      | EmptyString => MatchingFailure
      end
  end.

Definition EOF : Z := -1.

(** The return value when scanning stops with [vals] assigned so far. *)
Definition stop_count (input_failure : bool) (vals : list Z) : Z :=
  match vals with
  | [] => if input_failure then EOF else 0
  | _ => Z.of_nat (List.length vals)
  end.

(** Run the directives over the input; [vals] are the values assigned so
    far, in order.  Returns [sscanf]'s result and the assigned values. *)
Fixpoint run_directives (ds : list directive) (s : string) (vals : list Z)
  : Z * list Z :=
  match ds with
  | [] => (stop_count false vals, vals)
  | Space :: ds' => run_directives ds' (skip_space s) vals
  | Lit c :: ds' =>
      match s with
      | EmptyString => (stop_count true vals, vals)
      | String c' r =>
          if Ascii.eqb c c' then run_directives ds' r vals
          else (stop_count false vals, vals)
      end
  | ConvU :: ds' =>
      match conv_ull s with
      | Converted v rest => run_directives ds' rest (vals ++ [v])
      | MatchingFailure => (stop_count false vals, vals)
      | InputFailure => (stop_count true vals, vals)
      end
  end.

Definition sscanf (buf fmt : string) : Z * list Z :=
  run_directives (directives_of fmt) buf [].

(** The variable the [i]-th conversion assigned. *)
Definition assigned (vals : list Z) (i : nat) : Z := nth i vals 0.

(** ** What a memory or disk collector reports *)

Record usage : Type := {
  used_gb : double;
  total_gb : double;
  percent_used : double
}.

(** [bytes / 1024.0 / 1024.0 / 1024.0]. *)
Definition gigabytes (bytes : Z) : double :=
  ddiv (ddiv (ddiv (double_of_Z bytes) d1024) d1024) d1024.

(** ** Linux collectors *)

Module Linux.

(** [get_cpu_times] of the [__linux__] build.  [proc_stat] is the content
    of /proc/stat, [None] when it cannot be opened.  The Linux struct has no
    [intr] member; the record's field is left at 0 and never read. *)
Definition get_cpu_times (proc_stat : option string) : result cpu_times_t :=
  match proc_stat with
  | None => Fail (Perror "fopen /proc/stat")
  | Some content =>
      match fgets 256 content with
      | None => Fail (Perror "fgets")
      | Some (buf, _) =>
          let (ret, vals) := sscanf buf "cpu  %llu %llu %llu %llu" in
          if ret <? 4 then Fail (Eprintf "Failed to parse /proc/stat cpu line")
          else Ok {| user := assigned vals 0;
                     nice := assigned vals 1;
                     system := assigned vals 2;
                     idle := assigned vals 3;
                     intr := 0 |}
      end
  end.

(** The [while (fgets ...)] loop over /proc/meminfo; [fuel] bounds the
    number of reads and [String.length content] always suffices. *)
Fixpoint meminfo_loop (fuel : nat) (content : string)
  (mem_total mem_available : Z) : Z * Z :=
  match fuel with
  | O => (mem_total, mem_available)
  | S fuel' =>
      match fgets 256 content with
      | None => (mem_total, mem_available)
      | Some (line, rest) =>
          let (r1, v1) := sscanf line "MemTotal: %lu kB" in
          if r1 =? 1 then meminfo_loop fuel' rest (assigned v1 0) mem_available
          else
            let (r2, v2) := sscanf line "MemAvailable: %lu kB" in
            if r2 =? 1 then meminfo_loop fuel' rest mem_total (assigned v2 0)
            else meminfo_loop fuel' rest mem_total mem_available
      end
  end.

(** [get_memory_usage] of the [__linux__] build; [meminfo] is the content
    of /proc/meminfo, [None] when it cannot be opened. *)
Definition get_memory_usage (meminfo : option string) : result usage :=
  match meminfo with
  | None => Fail (Perror "fopen /proc/meminfo")
  | Some content =>
      let (mem_total, mem_available) :=
        meminfo_loop (String.length content) content 0 0 in
      if mem_total =? 0 then Fail (Eprintf "Failed to get MemTotal")
      else
        let mem_used := u64 (mem_total - mem_available) in
        Ok {| total_gb := ddiv (ddiv (double_of_Z mem_total) d1024) d1024;
              used_gb := ddiv (ddiv (double_of_Z mem_used) d1024) d1024;
              percent_used :=
                dmul (ddiv (double_of_Z mem_used) (double_of_Z mem_total)) d100 |}
  end.

End Linux.

(** ** FreeBSD collectors *)

Module FreeBSD.

Definition CPUSTATES : Z := 5.
Definition sizeof_long : Z := 8.

(** What the kernel and the allocator answer during one [get_cpu_times]:
    the length reported by the sizing [sysctl], whether [malloc] returned a
    buffer, what that buffer holds when [malloc] hands it over (its content
    is indeterminate in C: one arbitrary [long] per index), and the [long]s
    the filling [sysctl] wrote at its start.  [None] is a negative return
    from [sysctl]. *)
Record cp_query : Type := {
  size_query : option Z;
  malloc_ok : bool;
  malloc_block : nat -> Z;
  fill_query : option (list Z)
}.

(** [cp_times[k]], converted to [unsigned long long] for the sum: the [long]
    the kernel wrote at index [k], and past what the kernel wrote the [long]
    the buffer already held. *)
Definition cell (block : nat -> Z) (cp_times : list Z) (k : Z) : Z :=
  u64 (nth (Z.to_nat k) cp_times (block (Z.to_nat k))).

Definition no_ticks : cpu_times_t :=
  {| user := 0; nice := 0; system := 0; idle := 0; intr := 0 |}.

(** The aggregation loop: [n] iterations remain and the index is [i]. *)
Fixpoint sum_cores (n : nat) (i : Z) (block : nat -> Z) (cp_times : list Z)
  (acc : cpu_times_t) : cpu_times_t :=
  match n with
  | O => acc
  | S n' =>
      sum_cores n' (i + 1) block cp_times
        {| user := u64 (user acc + cell block cp_times (i * CPUSTATES + 0));
           nice := u64 (nice acc + cell block cp_times (i * CPUSTATES + 1));
           system := u64 (system acc + cell block cp_times (i * CPUSTATES + 2));
           intr := u64 (intr acc + cell block cp_times (i * CPUSTATES + 3));
           idle := u64 (idle acc + cell block cp_times (i * CPUSTATES + 4)) |}
  end.

(** The number of cores the code derives from the reported length. *)
Definition num_cpus_of (len : Z) : Z :=
  let num_entries := to_int (len / sizeof_long) in
  Z.quot num_entries CPUSTATES.

(** [get_cpu_times] of the [__FreeBSD__] build. *)
Definition get_cpu_times (q : cp_query) : result cpu_times_t :=
  match size_query q with
  | None => Fail (Perror "sysctl (get size of kern.cp_times)")
  | Some len =>
      let num_cpus := num_cpus_of len in
      if negb (malloc_ok q) then Fail (Perror "malloc")
      else
        match fill_query q with
        | None => Fail (Perror "sysctl (get kern.cp_times)")
        | Some cp_times =>
            Ok (sum_cores (Z.to_nat num_cpus) 0 (malloc_block q) cp_times
                  no_ticks)
        end
  end.

(** What the kernel answers during one [get_memory_usage]: hw.physmem, the
    value of [sysconf(_SC_PAGESIZE)] (negative on failure) and
    vm.stats.vm.v_free_count. *)
Record mem_query : Type := {
  physmem : option Z;
  pagesize : Z;
  free_count : option Z
}.

Definition free_mem_of (free_pages page_size : Z) : Z :=
  u64 (free_pages * page_size).

Definition used_mem_of (total_mem free_pages page_size : Z) : Z :=
  let free_mem := free_mem_of free_pages page_size in
  if total_mem >? free_mem then u64 (total_mem - free_mem) else 0.

(** [get_memory_usage] of the [__FreeBSD__] build. *)
Definition get_memory_usage (q : mem_query) : result usage :=
  match physmem q with
  | None => Fail (Perror "sysctl hw.physmem")
  | Some total_mem =>
      let page_size := pagesize q in
      if page_size <? 0 then Fail (Perror "sysconf _SC_PAGESIZE")
      else
        match free_count q with
        | None => Fail (Perror "sysctl vm.stats.vm.v_free_count")
        | Some free_pages =>
            let used_mem := used_mem_of total_mem free_pages page_size in
            Ok {| total_gb := gigabytes total_mem;
                  used_gb := gigabytes used_mem;
                  percent_used :=
                    dmul (ddiv (double_of_Z used_mem) (double_of_Z total_mem))
                         d100 |}
        end
  end.

End FreeBSD.

(** ** Disk usage *)

Record statvfs_t : Type := {
  f_blocks : Z;
  f_frsize : Z;
  f_bfree : Z
}.

(** [root] is what [statvfs("/")] fills in, [None] when it fails. *)
Definition get_disk_usage (root : option statvfs_t) : result usage :=
  match root with
  | None => Fail (Perror "statvfs")
  | Some vfs =>
      let total := u64 (f_blocks vfs * f_frsize vfs) in
      let free := u64 (f_bfree vfs * f_frsize vfs) in
      let used := u64 (total - free) in
      Ok {| total_gb := gigabytes total;
            used_gb := gigabytes used;
            percent_used :=
              if total =? 0 then d0
              else dmul (ddiv (double_of_Z used) (double_of_Z total)) d100 |}
  end.

(** ** Output *)

Inductive line : Type :=
  | Text (s : string)
  | CpuUsage (percent : double)
  | MemoryUsage (u : usage)
  | DiskUsage (u : usage)
  | Interface (name ip netmask : string).

Inductive event : Type :=
  | Stdout (l : line)
  | Stderr (d : diagnostic).

(** ** Network interfaces *)

Definition AF_INET : Z := 2.
Definition IFF_LOOPBACK : Z := 8.
Definition INET_ADDRSTRLEN : nat := 16.

(** An IPv4 address as its four bytes in network order. *)
Record in_addr : Type := {
  b0 : Byte.byte;
  b1 : Byte.byte;
  b2 : Byte.byte;
  b3 : Byte.byte
}.

Record sockaddr : Type := {
  sa_family : Z;
  sin_addr : in_addr
}.

(** One node of the list [getifaddrs] returns.  [ifa_addr] may be null; the
    source reads [ifa_netmask] without a null test, so the model covers the
    lists whose entries carry one. *)
Record ifaddrs : Type := {
  ifa_name : string;
  ifa_flags : Z;
  ifa_addr : option sockaddr;
  ifa_netmask : sockaddr
}.

Definition decimal (b : Byte.byte) : string :=
  NilZero.string_of_uint (N.to_uint (Byte.to_N b)).

Definition dotted (a : in_addr) : string :=
  (decimal (b0 a) ++ "." ++ decimal (b1 a) ++ "." ++
   decimal (b2 a) ++ "." ++ decimal (b3 a))%string.

(** [inet_ntop] for the one family the program passes: it fails when the
    family is not [AF_INET] or the text and its terminator exceed [size]. *)
Definition inet_ntop4 (af : Z) (a : in_addr) (size : nat) : option string :=
  if af =? AF_INET then
    let s := dotted a in
    if (String.length s + 1 <=? size)%nat then Some s else None
  else None.

Section Network.

Variable inet_ntop : Z -> in_addr -> nat -> option string.

(** The body of the [for] loop over the list; every [continue] moves on to
    the next node. *)
Fixpoint walk_interfaces (ifa : list ifaddrs) : list event :=
  match ifa with
  | [] => []
  | e :: next =>
      match ifa_addr e with
      | None => walk_interfaces next
      | Some addr =>
          if negb (sa_family addr =? AF_INET) then walk_interfaces next
          else if negb (Z.land (ifa_flags e) IFF_LOOPBACK =? 0)
          then walk_interfaces next
          else
            match inet_ntop AF_INET (sin_addr addr) INET_ADDRSTRLEN with
            | None => walk_interfaces next
            | Some ip =>
                match inet_ntop AF_INET (sin_addr (ifa_netmask e))
                        INET_ADDRSTRLEN with
                | None => walk_interfaces next
                | Some netmask =>
                    Stdout (Interface (ifa_name e) ip netmask)
                    :: walk_interfaces next
                end
            end
      end
  end.

(** [getifaddrs] is the list the call yields, [None] when it fails. *)
Definition print_network_interfaces (getifaddrs : option (list ifaddrs))
  : list event :=
  match getifaddrs with
  | None => [Stderr (Perror "getifaddrs")]
  | Some ifaddr => Stdout (Text "Network interfaces:") :: walk_interfaces ifaddr
  end.

End Network.

(** ** The report driver *)

Definition EXIT_SUCCESS : Z := 0.
Definition EXIT_FAILURE : Z := 1.

(** The two builds as one interface: the kernel data a build reads, and its
    two collectors. *)
Class Build (K : Type) : Type := {
  build_platform : platform;
  get_cpu_times : K -> result cpu_times_t;
  get_memory_usage : K -> result usage
}.

Record linux_kernel : Type := {
  proc_stat : option string;
  proc_meminfo : option string
}.

Record freebsd_kernel : Type := {
  kern_cp_times : FreeBSD.cp_query;
  vm_stats : FreeBSD.mem_query
}.

#[export] Instance linux_build : Build linux_kernel := {
  build_platform := Linux;
  get_cpu_times k := Linux.get_cpu_times (proc_stat k);
  get_memory_usage k := Linux.get_memory_usage (proc_meminfo k)
}.

#[export] Instance freebsd_build : Build freebsd_kernel := {
  build_platform := FreeBSD;
  get_cpu_times k := FreeBSD.get_cpu_times (kern_cp_times k);
  get_memory_usage k := FreeBSD.get_memory_usage (vm_stats k)
}.

(** Everything one run reads: the kernel before and after [sleep(1)], the
    root file system and the interface list. *)
Record host (K : Type) : Type := {
  before_sleep : K;
  after_sleep : K;
  root_statvfs : option statvfs_t;
  getifaddrs : option (list ifaddrs)
}.
Arguments before_sleep {K} h.
Arguments after_sleep {K} h.
Arguments root_statvfs {K} h.
Arguments getifaddrs {K} h.

Definition banner : list event :=
  [Stdout (Text "bsdmon - System Monitor");
   Stdout (Text "=======================")].

Definition memory_section (r : result usage) : list event :=
  match r with
  | Ok u => [Stdout (MemoryUsage u)]
  | Fail d => [Stderr d; Stdout (Text "Memory Usage: Error retrieving information")]
  end.

Definition disk_section (r : result usage) : list event :=
  match r with
  | Ok u => [Stdout (DiskUsage u)]
  | Fail d => [Stderr d; Stdout (Text "Disk Usage: Error retrieving information")]
  end.

(** [main]: the exit status and everything written, in program order. *)
Definition main {K : Type} `{Build K} (h : host K) : Z * list event :=
  match get_cpu_times (before_sleep h) with
  | Fail d =>
      (EXIT_FAILURE,
       (banner ++ [Stderr d; Stderr (Eprintf "Failed to get initial CPU times")])%list)
  | Ok prev =>
      match get_cpu_times (after_sleep h) with
      | Fail d =>
          (EXIT_FAILURE,
           (banner ++ [Stderr d; Stderr (Eprintf "Failed to get CPU times")])%list)
      | Ok curr =>
          let cpu_usage := calc_cpu_usage build_platform prev curr in
          (EXIT_SUCCESS,
           (banner ++ [Stdout (CpuUsage cpu_usage)]
            ++ memory_section (get_memory_usage (after_sleep h))
            ++ disk_section (get_disk_usage (root_statvfs h))
            ++ print_network_interfaces inet_ntop4 (getifaddrs h))%list)
      end
  end.

Definition exit_status {K : Type} `{Build K} (h : host K) : Z := fst (main h).
Definition written {K : Type} `{Build K} (h : host K) : list event := snd (main h).

(** ** Rounding, as the double operations perform it *)

Definition rounded (m : Z) (n : nat) (l : location) : Z :=
  let st := Nat.iter n shr_1 (shr_record_of_loc m l) in
  round_nearest_even (shr_m st) (loc_of_shr_record st).

Definition two52 : Z := 4503599627370496.
Definition two53 : Z := 9007199254740992.

(** The float a rounded mantissa [R] in [[2^52, 2^53]] stands for. *)
Definition normal (R e : Z) : double :=
  if R <? two53 then S754_finite false (Z.to_pos R) e
  else S754_finite false 4503599627370496 (e + 1).

(** A positive double in canonical form: mantissa [m] of exactly 53 bits and
    exponent [e]. *)
Definition canonical (x : double) (m e : Z) : Prop :=
  x = S754_finite false (Z.to_pos m) e /\ two52 <= m < two53.

(** The number of low bits a conversion drops. *)
Definition dropped (p : positive) : Z := Z.max 0 (Zpos (digits2_pos p) - 53).

(** The integer nearest to [p] among those a double can hold. *)
Definition nearest (p : positive) : Z :=
  rounded (Zpos p) (Z.to_nat (dropped p)) loc_Exact * 2 ^ dropped p.

(** The order of canonical doubles, as [SFcompare] decides it. *)
Definition below (m1 e1 m2 e2 : Z) : Prop :=
  e1 < e2 \/ (e1 = e2 /\ m1 <= m2).

Definition two105 : Z := 40564819207303340847894502572032.

(** The mantissa of [100.0]. *)
Definition m100 : Z := 7036874417766400.

(** ** Vocabulary of the properties *)

(** A percentage: a double between [0.0] and [100.0]. *)
Definition in_percent_range (r : double) : bool := dleb d0 r && dleb r d100.

(** The counters of a sample that the platform's build has. *)
Definition fields (p : platform) (t : cpu_times_t) : list Z :=
  match p with
  | Linux => [user t; nice t; system t; idle t]
  | FreeBSD => [user t; nice t; system t; intr t; idle t]
  end.

(** Every counter fits its 64-bit unsigned type. *)
Definition valid_sample (p : platform) (t : cpu_times_t) : Prop :=
  Forall in_u64 (fields p t).

(** No counter of [curr] is below the same counter of [prev]. *)
Definition non_decreasing (p : platform) (prev curr : cpu_times_t) : Prop :=
  Forall2 Z.le (fields p prev) (fields p curr).

(** The sum of the counters as a mathematical integer. *)
Definition ticks (p : platform) (t : cpu_times_t) : Z :=
  fold_right Z.add 0 (fields p t).

(** The active time (everything but idle) as a mathematical integer. *)
Definition active_ticks (p : platform) (t : cpu_times_t) : Z :=
  ticks p t - idle t.

(** The two deltas [calc_cpu_usage] computes. *)
Definition total_delta (p : platform) (prev curr : cpu_times_t) : Z :=
  u64 (total_of p curr - total_of p prev).

Definition active_delta (p : platform) (prev curr : cpu_times_t) : Z :=
  u64 (active_of p curr - active_of p prev).

(** Samples used to exercise the estimator. *)
Definition sample (u n s i : Z) : cpu_times_t :=
  {| user := u; nice := n; system := s; idle := i; intr := 0 |}.

(** A pair whose total advances while [user] falls back. *)
Definition fallback_prev : cpu_times_t := sample 10 0 0 0.
Definition fallback_curr : cpu_times_t := sample 5 0 0 100.

(** A pair whose counters only grow, but whose sum passes [2^64]. *)
Definition overflow_prev : cpu_times_t := sample 0 0 0 0.
Definition overflow_curr : cpu_times_t :=
  sample 9223372036854775808 0 0 9223372036854775809.

(** What follows the literal [cpu] at the head of [buf], if it is there. *)
Definition after_cpu (buf : string) : option string :=
  match buf with
  | String c1 (String c2 (String c3 r)) =>
      if Ascii.eqb "c" c1 && Ascii.eqb "p" c2 && Ascii.eqb "u" c3
      then Some r else None
  | _ => None
  end.

(** The unsigned integers that can be extracted from the head of [s], one
    after the other, up to [k] of them. *)
Fixpoint leading_unsigned (k : nat) (s : string) : list Z :=
  match k with
  | O => []
  | S k' =>
      match conv_ull s with
      | Converted v rest => v :: leading_unsigned k' rest
      | _ => []
      end
  end.

(** The integers the aggregate-CPU line offers after its prefix (at most
    four are looked at). *)
Definition cpu_fields (buf : string) : list Z :=
  match after_cpu buf with
  | Some r => leading_unsigned 4 r
  | None => []
  end.

Definition parse_failure : diagnostic :=
  Eprintf "Failed to parse /proc/stat cpu line".

(** An aggregate-CPU line that lacks its idle field, and a complete one. *)
Definition stat_without_idle : string :=
  "cpu  4705 150 1120" ++ String newline ("cpu0 1393 50 560 7000" ++ String newline "").
Definition stat_complete : string :=
  "cpu  4705 150 1120 16250 520 0 17 0 0 0" ++ String newline "".

(** The successive results of [fgets(line, 256, fp)] on a stream. *)
Fixpoint fgets_lines (fuel : nat) (content : string) : list string :=
  match fuel with
  | O => []
  | S fuel' =>
      match fgets 256 content with
      | None => []
      | Some (line, rest) => line :: fgets_lines fuel' rest
      end
  end.

Definition lines_of (content : string) : list string :=
  fgets_lines (String.length content) content.

(** The value a line gives for a one-conversion format, when [sscanf]
    returns 1 on it. *)
Definition scan_key (fmt line : string) : option Z :=
  let (r, vals) := sscanf line fmt in
  if r =? 1 then Some (assigned vals 0) else None.

(** The value of the last line that matches [fmt]. *)
Fixpoint last_value (fmt : string) (lines : list string) : option Z :=
  match lines with
  | [] => None
  | l :: ls =>
      match last_value fmt ls with
      | Some v => Some v
      | None => scan_key fmt l
      end
  end.

(** [kb / 1024.0 / 1024.0]. *)
Definition kb_to_gb (kb : Z) : double := ddiv (ddiv (double_of_Z kb) d1024) d1024.

(** Whether the finite double [x] is within [tol] of the rational [v]. *)
Definition approx (x : double) (v tol : Q) : bool :=
  match Q_of_double x with
  | Some q => Qle_bool (Qabs (q - v)) tol
  | None => false
  end.

(** Whether the finite double [x] is exactly the rational [v]. *)
Definition has_value (x : double) (v : Q) : bool :=
  match Q_of_double x with
  | Some q => Qeq_bool q v
  | None => false
  end.

(** /proc/meminfo with the fixture's two values. *)
Definition meminfo_fixture : string :=
  "MemTotal:       24670208 kB" ++ String newline
  ("MemFree:        22391320 kB" ++ String newline
  ("MemAvailable:   23488000 kB" ++ String newline
  ("Buffers:          112652 kB" ++ String newline ""))).

(** /proc/meminfo as kernels without the MemAvailable line give it. *)
Definition meminfo_without_available : string :=
  "MemTotal:        8052444 kB" ++ String newline
  ("MemFree:         2520500 kB" ++ String newline
  ("Buffers:          112652 kB" ++ String newline "")).

(** One turn of the /proc/meminfo loop on the pair
    [(mem_total, mem_available)]. *)
Definition meminfo_step (acc : Z * Z) (line : string) : Z * Z :=
  match scan_key "MemTotal: %lu kB" line with
  | Some v => (v, snd acc)
  | None =>
      match scan_key "MemAvailable: %lu kB" line with
      | Some v => (fst acc, v)
      | None => acc
      end
  end.

(** What a buffer holds when [malloc] returns it, in the fixtures: stale
    bytes, all ones. *)
Definition stale_block : nat -> Z := fun _ => -1.

(** A sizing query that reports no core at all (an empty array), with the
    allocation and the filling query both succeeding. *)
Definition no_core_query : FreeBSD.cp_query :=
  {| FreeBSD.size_query := Some 0;
     FreeBSD.malloc_ok := true;
     FreeBSD.malloc_block := stale_block;
     FreeBSD.fill_query := Some [] |}.

(** Two cores, five counters each. *)
Definition two_core_query : FreeBSD.cp_query :=
  {| FreeBSD.size_query := Some 80;
     FreeBSD.malloc_ok := true;
     FreeBSD.malloc_block := stale_block;
     FreeBSD.fill_query := Some [100; 2; 30; 7; 500; 150; 0; 41; 9; 480] |}.

(** 8 GiB of memory, 4096-byte pages, and a free-page count of [2^52]: the
    product of the last two is [2^64]. *)
Definition wrapping_mem_query : FreeBSD.mem_query :=
  {| FreeBSD.physmem := Some 8589934592;
     FreeBSD.pagesize := 4096;
     FreeBSD.free_count := Some 4503599627370496 |}.

(** 8 GiB of memory, 4096-byte pages, and slightly more free pages than
    the total holds. *)
Definition surplus_mem_query : FreeBSD.mem_query :=
  {| FreeBSD.physmem := Some 8589934592;
     FreeBSD.pagesize := 4096;
     FreeBSD.free_count := Some 2097160 |}.

(** Whether an entry passes the three filters: it has an address, the
    address is IPv4, and the loopback flag is clear. *)
Definition reportable (e : ifaddrs) : bool :=
  match ifa_addr e with
  | Some a => (sa_family a =? AF_INET) && (Z.land (ifa_flags e) IFF_LOOPBACK =? 0)
  | None => false
  end.

(** The record of an entry, when both conversions succeed. *)
Definition record_of (inet_ntop : Z -> in_addr -> nat -> option string)
  (e : ifaddrs) : option event :=
  match ifa_addr e with
  | Some a =>
      match inet_ntop AF_INET (sin_addr a) INET_ADDRSTRLEN,
            inet_ntop AF_INET (sin_addr (ifa_netmask e)) INET_ADDRSTRLEN with
      | Some ip, Some netmask => Some (Stdout (Interface (ifa_name e) ip netmask))
      | _, _ => None
      end
  | None => None
  end.

(** The record of an entry in dotted-decimal form. *)
Definition dotted_record (e : ifaddrs) : event :=
  Stdout (Interface (ifa_name e)
            (match ifa_addr e with
             | Some a => dotted (sin_addr a)
             | None => ""
             end)
            (dotted (sin_addr (ifa_netmask e)))).

Definition octet (n : N) : Byte.byte :=
  match Byte.of_N n with
  | Some b => b
  | None => Byte.x00
  end.

Definition ipv4 (a b c d : N) : in_addr :=
  {| b0 := octet a; b1 := octet b; b2 := octet c; b3 := octet d |}.

Definition AF_INET6 : Z := 10.
Definition IFF_UP : Z := 1.
Definition IFF_RUNNING : Z := 64.

(** A loopback IPv4 entry, a non-loopback IPv4 entry and a non-loopback
    IPv6 entry. *)
Definition lo_v4 : ifaddrs :=
  {| ifa_name := "lo";
     ifa_flags := Z.lor IFF_UP (Z.lor IFF_LOOPBACK IFF_RUNNING);
     ifa_addr := Some {| sa_family := AF_INET; sin_addr := ipv4 127 0 0 1 |};
     ifa_netmask := {| sa_family := AF_INET; sin_addr := ipv4 255 0 0 0 |} |}.

Definition eth0_v4 : ifaddrs :=
  {| ifa_name := "eth0";
     ifa_flags := Z.lor IFF_UP IFF_RUNNING;
     ifa_addr := Some {| sa_family := AF_INET; sin_addr := ipv4 192 168 1 10 |};
     ifa_netmask := {| sa_family := AF_INET; sin_addr := ipv4 255 255 255 0 |} |}.

Definition eth0_v6 : ifaddrs :=
  {| ifa_name := "eth0";
     ifa_flags := Z.lor IFF_UP IFF_RUNNING;
     ifa_addr := Some {| sa_family := AF_INET6; sin_addr := ipv4 0 0 0 0 |};
     ifa_netmask := {| sa_family := AF_INET6; sin_addr := ipv4 0 0 0 0 |} |}.

Definition synthetic_interfaces : list ifaddrs := [lo_v4; eth0_v4; eth0_v6].

(** A conversion into a buffer of ten bytes: it fails on every address
    whose text is longer than nine characters. *)
Definition inet_ntop_short (af : Z) (a : in_addr) (size : nat) : option string :=
  inet_ntop4 af a 10.

Definition docker0_v4 : ifaddrs :=
  {| ifa_name := "docker0";
     ifa_flags := IFF_UP;
     ifa_addr := Some {| sa_family := AF_INET; sin_addr := ipv4 10 0 0 1 |};
     ifa_netmask := {| sa_family := AF_INET; sin_addr := ipv4 255 0 0 0 |} |}.


Definition root_fs : statvfs_t :=
  {| f_blocks := 263940717; f_frsize := 4096; f_bfree := 238402893 |}.



(** ** Decimal text, as the kernel prints counters *)

Definition digit_char (d : Z) : ascii := ascii_of_nat (Z.to_nat (48 + d)).

(** The decimal digits of [n] placed before [acc], least significant digit
    first to be produced; [fuel] bounds their number. *)
Fixpoint render_digits (fuel : nat) (n : Z) (acc : string) : string :=
  match fuel with
  | O => acc
  | S fuel' =>
      let acc' := String (digit_char (n mod 10)) acc in
      if n <? 10 then acc' else render_digits fuel' (n / 10) acc'
  end.

(** Twenty digits cover every 64-bit value. *)
Definition render_ull (n : Z) : string := render_digits 20 n "".

(** A string that does not continue a number. *)
Definition no_digit_ahead (s : string) : Prop :=
  match s with
  | String c _ => isdigit c = false
  | EmptyString => True
  end.

(** ** Vocabulary of the further properties *)

(** A double that is a zero or a positive finite number: neither a NaN, nor
    an infinity, nor negative. *)
Definition finite_nonneg (r : double) : bool :=
  match r with
  | S754_zero false => true
  | S754_finite false _ _ => true
  | _ => false
  end.

(** The counter of state [k] of core [i] in the kernel array. *)
Definition entry (cp_times : list Z) (i k : nat) : Z :=
  nth (5 * i + k) cp_times 0.

(** The sum of state [k] over the cores [from], ..., [from + n - 1], as a
    mathematical integer. *)
Definition column (cp_times : list Z) (from n k : nat) : Z :=
  fold_right Z.add 0 (map (fun i => entry cp_times i k) (seq from n)).

(** A 4-core answer, the third core reporting a negative [long] for user
    time. *)
Definition four_core_query : FreeBSD.cp_query :=
  {| FreeBSD.size_query := Some 160;
     FreeBSD.malloc_ok := true;
     FreeBSD.malloc_block := stale_block;
     FreeBSD.fill_query :=
       Some [100; 2; 30; 7; 500;   150; 0; 41; 9; 480;
             -1; 0; 0; 0; 0;       1; 1; 1; 1; 1] |}.


(** No physical memory reported. *)
Definition zero_physmem_query : FreeBSD.mem_query :=
  {| FreeBSD.physmem := Some 0;
     FreeBSD.pagesize := 4096;
     FreeBSD.free_count := Some 1000 |}.

Definition typical_mem_query : FreeBSD.mem_query :=
  {| FreeBSD.physmem := Some 8589934592;
     FreeBSD.pagesize := 4096;
     FreeBSD.free_count := Some 1500000 |}.

(** Whether a double is a NaN. *)
Definition is_nan (r : double) : bool :=
  match r with
  | S754_nan => true
  | _ => false
  end.

(** A file system that reports no block. *)
Definition empty_fs : statvfs_t :=
  {| f_blocks := 0; f_frsize := 4096; f_bfree := 0 |}.

Definition value_or_zero (o : option Z) : Z :=
  match o with
  | Some v => v
  | None => 0
  end.

(** /proc/meminfo with the lines in an unusual order and MemTotal given
    twice. *)
Definition meminfo_shuffled : string :=
  "MemAvailable:    1000000 kB" ++ String newline
  ("MemTotal:        9999999 kB" ++ String newline
  ("MemFree:          500000 kB" ++ String newline
  ("MemTotal:        4000000 kB" ++ String newline ""))).

Fixpoint has_newline (s : string) : bool :=
  match s with
  | EmptyString => false
  | String c r => Ascii.eqb c newline || has_newline r
  end.

(** A per-core line, and the same /proc/stat with other lines after the
    first. *)
Definition stat_per_core : string :=
  "cpu0 1393 50 560 7000 12 0 3 0 0 0" ++ String newline "".
Definition stat_first_line : string := "cpu  4705 150 1120 16250 520 0 17 0 0 0".
Definition stat_several_lines : string :=
  stat_first_line ++ String newline
  ("cpu0 1393 50 560 7000 12 0 3 0 0 0" ++ String newline
  ("intr 114930548 113199788" ++ String newline "")).

(** A Linux host whose /proc/stat reads the same before and after the
    pause. *)
Definition stalled_host : host linux_kernel :=
  {| before_sleep := {| proc_stat := Some stat_complete;
                        proc_meminfo := Some meminfo_fixture |};
     after_sleep := {| proc_stat := Some stat_complete;
                       proc_meminfo := Some meminfo_fixture |};
     root_statvfs := Some root_fs;
     getifaddrs := Some synthetic_interfaces |}.

Definition stat_later : string :=
  "cpu  4745 150 1130 16300 520 0 17 0 0 0" ++ String newline "".

(** A Linux host whose counters advance over the pause. *)
Definition busy_host : host linux_kernel :=
  {| before_sleep := {| proc_stat := Some stat_complete;
                        proc_meminfo := Some meminfo_fixture |};
     after_sleep := {| proc_stat := Some stat_later;
                       proc_meminfo := Some meminfo_fixture |};
     root_statvfs := Some root_fs;
     getifaddrs := Some synthetic_interfaces |}.

(** A FreeBSD host whose kernel reports an empty counter array. *)
Definition coreless_host : host freebsd_kernel :=
  {| before_sleep := {| kern_cp_times := no_core_query;
                        vm_stats := typical_mem_query |};
     after_sleep := {| kern_cp_times := no_core_query;
                       vm_stats := typical_mem_query |};
     root_statvfs := Some root_fs;
     getifaddrs := Some synthetic_interfaces |}.

(** * Properties of the double operations *)

Lemma iter_pos_nat {A : Type} (f : A -> A) (p : positive) (x : A) :
  iter_pos f p x = Nat.iter (Pos.to_nat p) f x.
Proof.
  revert x; induction p as [p IH | p IH |]; intro x; cbn [iter_pos].
  - rewrite !IH, Pos2Nat.inj_xI, <- Nat.iter_add, <- Nat.iter_succ_r.
    f_equal; lia.
  - rewrite !IH, Pos2Nat.inj_xO, <- Nat.iter_add. f_equal; lia.
  - reflexivity.
Qed.

Lemma digits2_pos_bounds (p : positive) :
  2 ^ (Zpos (digits2_pos p) - 1) <= Zpos p < 2 ^ Zpos (digits2_pos p).
Proof.
  induction p as [p IH | p IH |]; cbn [digits2_pos].
  - rewrite Pos2Z.inj_succ.
    replace (Z.succ (Zpos (digits2_pos p)) - 1) with (Z.succ (Zpos (digits2_pos p) - 1)) by lia.
    rewrite !Z.pow_succ_r by lia. lia.
  - rewrite Pos2Z.inj_succ.
    replace (Z.succ (Zpos (digits2_pos p)) - 1) with (Z.succ (Zpos (digits2_pos p) - 1)) by lia.
    rewrite !Z.pow_succ_r by lia. lia.
  - cbn. lia.
Qed.

Lemma digits2_pos_unique (p : positive) (d : Z) :
  2 ^ (d - 1) <= Zpos p < 2 ^ d -> Zpos (digits2_pos p) = d.
Proof.
  intros H. pose proof (digits2_pos_bounds p) as B.
  assert (0 < d).
  { destruct (Z_lt_le_dec 0 d) as [|Hd]; [assumption|].
    assert (2 ^ d <= 2 ^ 0) by (apply Z.pow_le_mono_r; lia). simpl in *. lia. }
  assert (Z.log2 (Zpos p) = d - 1) by (apply Z.log2_unique; [lia|]; replace (Z.succ (d - 1)) with d by lia; lia).
  assert (Z.log2 (Zpos p) = Zpos (digits2_pos p) - 1).
  { apply Z.log2_unique; [lia|].
    replace (Z.succ (Zpos (digits2_pos p) - 1)) with (Zpos (digits2_pos p)) by lia. lia. }
  lia.
Qed.

Lemma shr_1_nonneg (m : Z) (r s : bool) :
  0 <= m ->
  shr_1 {| shr_m := m; shr_r := r; shr_s := s |} =
  {| shr_m := Z.div2 m; shr_r := Z.odd m; shr_s := r || s |}.
Proof.
  intros Hm. destruct m as [| p | p]; [reflexivity | | lia].
  destruct p; reflexivity.
Qed.

Lemma shr_nat (st : shr_record) (e n : Z) :
  0 <= n -> shr st e n = (Nat.iter (Z.to_nat n) shr_1 st, e + n).
Proof.
  intros Hn. destruct n as [| p | p]; [| | lia].
  - cbn. f_equal. lia.
  - cbn [shr]. rewrite iter_pos_nat. reflexivity.
Qed.

(** The state after [S j] one-bit shifts of a non-negative mantissa. *)
Lemma shr_iter_S (j : nat) (m : Z) (r0 s0 : bool) :
  0 <= m ->
  Nat.iter (S j) shr_1 {| shr_m := m; shr_r := r0; shr_s := s0 |} =
  {| shr_m := m / 2 ^ (Z.of_nat j + 1);
     shr_r := Z.odd (m / 2 ^ Z.of_nat j);
     shr_s := negb (m mod 2 ^ Z.of_nat j =? 0) || (r0 || s0) |}.
Proof.
  intros Hm. induction j as [| j IH].
  - cbn [Nat.iter]. rewrite shr_1_nonneg by assumption.
    cbn [Z.of_nat]. rewrite Z.div2_div. f_equal.
    + rewrite Z.div_1_r. reflexivity.
    + rewrite Z.mod_1_r. reflexivity.
  - rewrite Nat.iter_succ, IH.
    rewrite shr_1_nonneg by (apply Z.div_pos; lia).
    rewrite Z.div2_div, Z.div_div by lia.
    rewrite Nat2Z.inj_succ.
    replace (2 ^ (Z.of_nat j + 1) * 2) with (2 ^ (Z.succ (Z.of_nat j) + 1))
      by (rewrite !Z.pow_add_r, !Z.pow_succ_r by lia; lia).
    replace (Z.of_nat j + 1) with (Z.succ (Z.of_nat j)) by lia.
    f_equal.
    assert (E : m mod 2 ^ Z.succ (Z.of_nat j)
                = m mod 2 ^ Z.of_nat j
                  + 2 ^ Z.of_nat j * Z.b2z (Z.odd (m / 2 ^ Z.of_nat j))).
    { rewrite Z.pow_succ_r by lia.
      rewrite (Z.mul_comm 2), Z.rem_mul_r by lia.
      rewrite <- Z.bit0_mod, Z.bit0_odd. reflexivity. }
    rewrite E.
    assert (0 <= m mod 2 ^ Z.of_nat j) by (apply Z.mod_pos_bound; lia).
    assert (0 < 2 ^ Z.of_nat j) by lia.
    destruct (Z.odd (m / 2 ^ Z.of_nat j)); cbn [Z.b2z].
    + destruct (m mod 2 ^ Z.of_nat j =? 0) eqn:E0; cbn;
        destruct (_ =? 0) eqn:E1; try reflexivity; lia.
    + rewrite Z.mul_0_r, Z.add_0_r. cbn [orb].
      destruct (m mod 2 ^ Z.of_nat j =? 0); reflexivity.
Qed.

Lemma shr_record_of_loc_eta (m : Z) (l : location) :
  exists r s, shr_record_of_loc m l = {| shr_m := m; shr_r := r; shr_s := s |}.
Proof. destruct l as [| []]; cbn; eauto. Qed.

Lemma round_nearest_even_bounds (k : Z) (l : location) :
  k <= round_nearest_even k l <= k + 1.
Proof. destruct l as [| []]; cbn; try destruct (Z.even k); lia. Qed.

Lemma shr_m_iter (n : nat) (m : Z) (r s : bool) :
  0 <= m ->
  shr_m (Nat.iter n shr_1 {| shr_m := m; shr_r := r; shr_s := s |})
  = m / 2 ^ Z.of_nat n.
Proof.
  intros Hm. destruct n as [| j].
  - cbn. now rewrite Z.div_1_r.
  - rewrite shr_iter_S by assumption. cbn [shr_m].
    rewrite Nat2Z.inj_succ. unfold Z.succ. reflexivity.
Qed.

(** F1: rounding moves the truncated mantissa up by at most one. *)
Lemma rounded_bounds (m : Z) (n : nat) (l : location) :
  0 <= m ->
  m / 2 ^ Z.of_nat n <= rounded m n l <= m / 2 ^ Z.of_nat n + 1.
Proof.
  intros Hm. unfold rounded.
  destruct (shr_record_of_loc_eta m l) as (r & s & ->).
  cbv zeta. rewrite <- (shr_m_iter n m r s Hm).
  apply round_nearest_even_bounds.
Qed.

Lemma split_at_bit (m : Z) (j : Z) :
  0 <= j ->
  m = m / 2 ^ (j + 1) * 2 ^ (j + 1)
      + Z.b2z (Z.odd (m / 2 ^ j)) * 2 ^ j + m mod 2 ^ j.
Proof.
  intros Hj.
  assert (0 < 2 ^ j) by (apply Z.pow_pos_nonneg; lia).
  rewrite Z.pow_add_r, Z.pow_1_r by lia.
  rewrite <- Z.div_div by lia.
  pose proof (Z.div_mod m (2 ^ j) ltac:(lia)) as E1.
  pose proof (Z.div2_odd (m / 2 ^ j)) as E2.
  rewrite Z.div2_div in E2. nia.
Qed.

Lemma rounded_exact_S (m : Z) (j : nat) :
  0 <= m ->
  rounded m (S j) loc_Exact =
  m / 2 ^ (Z.of_nat j + 1)
  + Z.b2z (Z.odd (m / 2 ^ Z.of_nat j)
           && (negb (m mod 2 ^ Z.of_nat j =? 0)
               || Z.odd (m / 2 ^ (Z.of_nat j + 1)))).
Proof.
  intros Hm. unfold rounded. cbn [shr_record_of_loc].
  rewrite shr_iter_S by assumption. cbn [shr_m loc_of_shr_record orb].
  rewrite orb_false_r.
  destruct (Z.odd (m / 2 ^ Z.of_nat j));
    destruct (m mod 2 ^ Z.of_nat j =? 0); cbn [negb andb orb round_nearest_even Z.b2z];
    try lia.
  rewrite <- Z.negb_odd.
  destruct (Z.odd (m / 2 ^ (Z.of_nat j + 1))); cbn; lia.
Qed.

Lemma rounded_exact_0 (m : Z) : rounded m 0 loc_Exact = m.
Proof. reflexivity. Qed.

(** F2: rounding never passes a multiple of the step that bounds the input. *)
Lemma rounded_le_multiple (m K : Z) (n : nat) :
  0 <= m -> m <= K * 2 ^ Z.of_nat n -> rounded m n loc_Exact <= K.
Proof.
  intros Hm HK. destruct n as [| j].
  - rewrite rounded_exact_0. cbn in HK. lia.
  - rewrite rounded_exact_S by assumption.
    rewrite Nat2Z.inj_succ in HK.
    replace (Z.succ (Z.of_nat j)) with (Z.of_nat j + 1) in HK by lia.
    pose proof (split_at_bit m (Z.of_nat j) ltac:(lia)) as E.
    set (k := m / 2 ^ (Z.of_nat j + 1)) in *.
    set (P := 2 ^ (Z.of_nat j + 1)) in *.
    assert (HP : 0 < P) by (apply Z.pow_pos_nonneg; lia).
    assert (Hj : 0 < 2 ^ Z.of_nat j) by (apply Z.pow_pos_nonneg; lia).
    assert (Hlo : 0 <= m mod 2 ^ Z.of_nat j) by (apply Z.mod_pos_bound; lia).
    destruct (Z_lt_le_dec k K) as [Hlt | Hge].
    + destruct (_ && _); cbn [Z.b2z]; lia.
    + destruct (Z.odd (m / 2 ^ Z.of_nat j)); cbn [Z.b2z andb] in *.
      * assert (k * P <= K * P) by lia. assert (k <= K) by nia. nia.
      * assert (k * P <= K * P) by lia. assert (k <= K) by nia. lia.
Qed.

(** F4: nor does it fall below one. *)
Lemma rounded_ge_multiple (m K : Z) (n : nat) (l : location) :
  0 <= m -> K * 2 ^ Z.of_nat n <= m -> K <= rounded m n l.
Proof.
  intros Hm HK. pose proof (rounded_bounds m n l Hm) as B.
  assert (K <= m / 2 ^ Z.of_nat n) by (apply Z.div_le_lower_bound; lia).
  lia.
Qed.

(** F3: rounding to nearest, ties to even, is monotone. *)
Lemma rounded_mono (m1 m2 : Z) (n : nat) :
  0 <= m1 -> m1 <= m2 -> rounded m1 n loc_Exact <= rounded m2 n loc_Exact.
Proof.
  intros H1 H12. destruct n as [| j].
  - rewrite !rounded_exact_0. assumption.
  - rewrite !rounded_exact_S by lia.
    pose proof (split_at_bit m1 (Z.of_nat j) ltac:(lia)) as E1.
    pose proof (split_at_bit m2 (Z.of_nat j) ltac:(lia)) as E2.
    assert (Hj : 0 < 2 ^ Z.of_nat j) by (apply Z.pow_pos_nonneg; lia).
    assert (HP : 2 ^ (Z.of_nat j + 1) = 2 * 2 ^ Z.of_nat j)
      by (rewrite Z.pow_add_r by lia; lia).
    pose proof (Z.mod_pos_bound m1 (2 ^ Z.of_nat j) Hj) as L1.
    pose proof (Z.mod_pos_bound m2 (2 ^ Z.of_nat j) Hj) as L2.
    rewrite HP in *.
    set (k1 := m1 / (2 * 2 ^ Z.of_nat j)) in *.
    set (k2 := m2 / (2 * 2 ^ Z.of_nat j)) in *.
    assert (Hk : k1 <= k2) by (apply Z.div_le_mono; lia).
    destruct (Z_lt_le_dec k1 k2) as [Hlt | Hge].
    + do 2 destruct (_ && _); cbn [Z.b2z]; lia.
    + assert (k1 = k2) by lia.
      destruct (Z.odd (m1 / 2 ^ Z.of_nat j)) eqn:B1; cbn [andb Z.b2z];
        [| destruct (_ && _); cbn [Z.b2z]; lia].
      destruct (Z.odd (m2 / 2 ^ Z.of_nat j)) eqn:B2; cbn [andb Z.b2z] in *;
        [| nia].
      replace k2 with k1 by lia.
      destruct (Z.odd k1); [rewrite !orb_true_r; lia |].
      rewrite !orb_false_r.
      destruct (m1 mod 2 ^ Z.of_nat j =? 0) eqn:Z1; cbn [negb Z.b2z];
        [destruct (negb _); cbn [Z.b2z]; lia |].
      destruct (m2 mod 2 ^ Z.of_nat j =? 0) eqn:Z2; cbn [negb Z.b2z]; [| lia].
      apply Z.eqb_eq in Z2. apply Z.eqb_neq in Z1. nia.
Qed.

Lemma truncated_range (mx : positive) (n : Z) :
  Zpos (digits2_pos mx) = 53 + n -> 0 <= n ->
  two52 <= Zpos mx / 2 ^ n < two53.
Proof.
  intros Hd Hn. pose proof (digits2_pos_bounds mx) as B. rewrite Hd in B.
  assert (0 < 2 ^ n) by (apply Z.pow_pos_nonneg; lia).
  replace (53 + n - 1) with (52 + n) in B by lia.
  rewrite !Z.pow_add_r in B by lia.
  change (2 ^ 52) with two52 in B. change (2 ^ 53) with two53 in B.
  split.
  - apply Z.div_le_lower_bound; lia.
  - apply Z.div_lt_upper_bound; lia.
Qed.

Lemma binary_round_aux_normal (mx : positive) (ex n : Z) (l : location) :
  Zpos (digits2_pos mx) = 53 + n -> 0 <= n ->
  -1074 <= ex + n -> ex + n < 971 ->
  binary_round_aux 53 1024 false (Zpos mx) ex l
  = normal (rounded (Zpos mx) (Z.to_nat n) l) (ex + n).
Proof.
  intros Hd Hn Hlo Hhi.
  pose proof (truncated_range mx n Hd Hn) as T.
  pose proof (rounded_bounds (Zpos mx) (Z.to_nat n) l ltac:(lia)) as B.
  rewrite Z2Nat.id in B by assumption.
  unfold binary_round_aux, shr_fexp at 1. cbn [Zdigits2]. rewrite Hd.
  unfold fexp at 1, emin. rewrite Z.max_l by lia.
  replace (53 + n + ex - 53 - ex) with n by lia.
  rewrite shr_nat by assumption.
  fold (rounded (Zpos mx) (Z.to_nat n) l).
  set (R := rounded (Zpos mx) (Z.to_nat n) l) in *.
  unfold normal. destruct (R <? two53) eqn:HR.
  - apply Z.ltb_lt in HR.
    destruct R as [| r | r]; try (unfold two52 in *; lia).
    assert (Hr : Zpos (digits2_pos r) = 53).
    { apply digits2_pos_unique. change (2 ^ (53 - 1)) with two52.
      change (2 ^ 53) with two53. lia. }
    unfold shr_fexp. cbn [Zdigits2 shr_record_of_loc]. rewrite Hr.
    unfold fexp, emin. rewrite Z.max_l by lia.
    replace (53 + (ex + n) - 53 - (ex + n)) with 0 by lia.
    cbn [shr shr_m Z.to_pos].
    replace (ex + n <=? 1024 - 53) with true by (symmetry; apply Z.leb_le; lia).
    reflexivity.
  - apply Z.ltb_ge in HR. assert (E : R = two53) by lia. rewrite E.
    unfold shr_fexp. change (Zdigits2 two53) with 54.
    unfold fexp, emin. rewrite Z.max_l by lia.
    replace (54 + (ex + n) - 53 - (ex + n)) with 1 by lia.
    cbn.
    replace (ex + n + 1 <=? 971) with true by (symmetry; apply Z.leb_le; lia).
    reflexivity.
Qed.

Lemma normal_canonical (R e : Z) :
  two52 <= R <= two53 ->
  exists m e', canonical (normal R e) m e'
    /\ m * 2 ^ (e' - e) = R /\ e <= e' <= e + 1
    /\ (e' = e + 1 -> m = two52).
Proof.
  intros HR. unfold normal. destruct (R <? two53) eqn:E.
  - apply Z.ltb_lt in E. exists R, e. unfold canonical.
    rewrite Z.sub_diag. cbn. repeat split; lia.
  - apply Z.ltb_ge in E. exists two52, (e + 1). unfold canonical.
    replace (e + 1 - e) with 1 by lia.
    repeat split; try (unfold two52, two53 in *; cbn; lia).
Qed.

Lemma Zpos_iter_xO (p d : positive) :
  Zpos (Pos.iter xO p d) = Zpos p * 2 ^ Zpos d.
Proof.
  rewrite (Pos.iter_swap_gen _ _ Zpos xO (Z.mul 2)) by reflexivity.
  rewrite <- Z.shiftl_mul_pow2 by lia. reflexivity.
Qed.

Lemma double_of_Z_canonical (p : positive) :
  Zpos p < two64 ->
  exists m e, canonical (double_of_Z (Zpos p)) m e
    /\ -52 <= e <= 12 /\ m * 2 ^ (e + 52) = nearest p * 2 ^ 52.
Proof.
  intros Hp. pose proof (digits2_pos_bounds p) as B.
  set (d := Zpos (digits2_pos p)) in *.
  assert (Hd : 1 <= d <= 64).
  { split; [subst d; lia |].
    destruct (Z_le_gt_dec d 64) as [|G]; [assumption|].
    assert (2 ^ 64 <= 2 ^ (d - 1)) by (apply Z.pow_le_mono_r; lia).
    unfold two64 in Hp. lia. }
  unfold double_of_Z, binary_normalize, binary_round.
  fold d. unfold fexp at 1, emin. rewrite Z.max_l by lia.
  unfold shl_align. unfold nearest, dropped. fold d.
  destruct (Z_lt_le_dec d 53) as [Hlt | Hge].
  - (* fewer than 53 bits: the mantissa is shifted left, nothing is lost *)
    destruct (d + 0 - 53 - 0) as [| q | q] eqn:Eq; try lia.
    assert (Hq : Zpos q = 53 - d) by lia.
    assert (Hm : Zpos (Pos.iter xO p q) = Zpos p * 2 ^ (53 - d))
      by (rewrite Zpos_iter_xO, Hq; reflexivity).
    assert (P1 : 2 ^ (d - 1) * 2 ^ (53 - d) = two52)
      by (rewrite <- Z.pow_add_r by lia; replace (d - 1 + (53 - d)) with 52 by lia; reflexivity).
    assert (P2 : 2 ^ d * 2 ^ (53 - d) = two53)
      by (rewrite <- Z.pow_add_r by lia; replace (d + (53 - d)) with 53 by lia; reflexivity).
    assert (0 < 2 ^ (53 - d)) by (apply Z.pow_pos_nonneg; lia).
    assert (R : two52 <= Zpos (Pos.iter xO p q) < two53) by (rewrite Hm; nia).
    rewrite (binary_round_aux_normal _ _ 0).
    + cbn [Z.to_nat]. rewrite rounded_exact_0.
      unfold normal. replace (_ <? two53) with true by (symmetry; apply Z.ltb_lt; lia).
      exists (Zpos (Pos.iter xO p q)), (d + 0 - 53 + 0). unfold canonical.
      cbn [Z.to_pos]. repeat split; try lia.
      rewrite Z.max_l by lia. cbn [Z.to_nat]. rewrite rounded_exact_0.
      rewrite Hm. replace (d + 0 - 53 + 0 + 52) with (d - 1) by lia.
      change (2 ^ 0) with 1. rewrite Z.mul_1_r.
      change (2 ^ 52) with two52. rewrite <- P1. ring.
    + apply digits2_pos_unique. change (2 ^ (53 + 0 - 1)) with two52.
      change (2 ^ (53 + 0)) with two53. exact R.
    + lia.
    + lia.
    + lia.
  - (* 53 bits or more: [d - 53] low bits are rounded away *)
    assert (Ea : (let (mz, ez) := match d + 0 - 53 - 0 with
                                  | Z.neg q => (Pos.iter xO p q, d + 0 - 53)
                                  | _ => (p, 0)
                                  end in
                  binary_round_aux 53 1024 false (Zpos mz) ez loc_Exact)
                 = binary_round_aux 53 1024 false (Zpos p) 0 loc_Exact)
      by (destruct (d + 0 - 53 - 0) eqn:E; try lia; reflexivity).
    rewrite Ea. clear Ea.
    rewrite Z.max_r by lia.
    rewrite (binary_round_aux_normal p 0 (d - 53)) by (subst d; lia).
    set (n := d - 53) in *.
    set (R := rounded (Zpos p) (Z.to_nat n) loc_Exact).
    assert (HR : two52 <= R <= two53).
    { pose proof (truncated_range p n ltac:(subst n d; lia) ltac:(lia)) as T.
      pose proof (rounded_bounds (Zpos p) (Z.to_nat n) loc_Exact ltac:(lia)) as F.
      rewrite Z2Nat.id in F by lia. fold R in F. lia. }
    destruct (normal_canonical R (0 + n) HR) as (m & e & C & V & E & _).
    exists m, e. split; [exact C|]. split; [lia|].
    rewrite <- V.
    rewrite <- !Z.mul_assoc, <- !Z.pow_add_r by lia.
    f_equal. f_equal. lia.
Qed.

Lemma dropped_range (p : positive) :
  0 <= dropped p <= Zpos (digits2_pos p) - 1.
Proof. unfold dropped. lia. Qed.

Lemma nearest_le_pow (p : positive) :
  nearest p <= 2 ^ Zpos (digits2_pos p).
Proof.
  pose proof (dropped_range p) as D. pose proof (digits2_pos_bounds p) as B.
  unfold nearest. set (n := dropped p) in *. set (d := Zpos (digits2_pos p)) in *.
  assert (E : 2 ^ d = 2 ^ (d - n) * 2 ^ n)
    by (rewrite <- Z.pow_add_r by lia; f_equal; lia).
  rewrite E. apply Z.mul_le_mono_nonneg_r; [apply Z.pow_nonneg; lia |].
  apply rounded_le_multiple; [lia |]. rewrite Z2Nat.id by lia. lia.
Qed.

Lemma nearest_ge_pow (p : positive) :
  2 ^ (Zpos (digits2_pos p) - 1) <= nearest p.
Proof.
  pose proof (dropped_range p) as D. pose proof (digits2_pos_bounds p) as B.
  unfold nearest. set (n := dropped p) in *. set (d := Zpos (digits2_pos p)) in *.
  assert (E : 2 ^ (d - 1) = 2 ^ (d - 1 - n) * 2 ^ n)
    by (rewrite <- Z.pow_add_r by lia; f_equal; lia).
  rewrite E. apply Z.mul_le_mono_nonneg_r; [apply Z.pow_nonneg; lia |].
  apply rounded_ge_multiple; [lia |]. rewrite Z2Nat.id by lia. lia.
Qed.

Lemma digits2_pos_mono (p q : positive) :
  (p <= q)%positive -> Zpos (digits2_pos p) <= Zpos (digits2_pos q).
Proof.
  intros H. pose proof (digits2_pos_bounds p) as Bp.
  pose proof (digits2_pos_bounds q) as Bq.
  destruct (Z_le_gt_dec (Zpos (digits2_pos p)) (Zpos (digits2_pos q))) as [|G];
    [assumption |].
  assert (2 ^ Zpos (digits2_pos q) <= 2 ^ (Zpos (digits2_pos p) - 1))
    by (apply Z.pow_le_mono_r; lia).
  lia.
Qed.

(** Conversion to [double] is monotone. *)
Lemma nearest_mono (p q : positive) :
  (p <= q)%positive -> nearest p <= nearest q.
Proof.
  intros H. pose proof (digits2_pos_mono p q H) as D.
  destruct (Z.eq_dec (Zpos (digits2_pos p)) (Zpos (digits2_pos q))) as [E | N].
  - unfold nearest, dropped. rewrite E.
    apply Z.mul_le_mono_nonneg_r; [apply Z.pow_nonneg; lia |].
    apply rounded_mono; lia.
  - pose proof (nearest_le_pow p). pose proof (nearest_ge_pow q).
    assert (2 ^ Zpos (digits2_pos p) <= 2 ^ (Zpos (digits2_pos q) - 1))
      by (apply Z.pow_le_mono_r; lia).
    lia.
Qed.

Lemma below_of_values (m1 e1 m2 e2 : Z) :
  two52 <= m1 < two53 -> two52 <= m2 < two53 ->
  -52 <= e1 -> -52 <= e2 ->
  m1 * 2 ^ (e1 + 52) <= m2 * 2 ^ (e2 + 52) ->
  below m1 e1 m2 e2.
Proof.
  intros H1 H2 L1 L2 V. unfold below.
  destruct (Z.lt_trichotomy e1 e2) as [Lt | [Eq | Gt]]; [left; assumption | |].
  - right. split; [assumption |]. subst e2.
    assert (0 < 2 ^ (e1 + 52)) by (apply Z.pow_pos_nonneg; lia). nia.
  - exfalso.
    assert (E : 2 ^ (e1 + 52) = 2 ^ (e2 + 52) * 2 ^ (e1 - e2))
      by (rewrite <- Z.pow_add_r by lia; f_equal; lia).
    assert (2 ^ 1 <= 2 ^ (e1 - e2)) by (apply Z.pow_le_mono_r; lia).
    assert (0 < 2 ^ (e2 + 52)) by (apply Z.pow_pos_nonneg; lia).
    change (2 ^ 1) with 2 in *. unfold two52, two53 in *.
    rewrite E in V. nia.
Qed.

Lemma dleb_of_below (x y : double) (m1 e1 m2 e2 : Z) :
  canonical x m1 e1 -> canonical y m2 e2 -> below m1 e1 m2 e2 ->
  dleb x y = true.
Proof.
  intros [-> H1] [-> H2] B. unfold dleb, SFleb, SFcompare.
  assert (P1 : 0 < m1) by (unfold two52 in *; lia).
  assert (P2 : 0 < m2) by (unfold two52 in *; lia).
  destruct B as [Lt | [-> Le]].
  - rewrite (proj2 (Z.compare_lt_iff e1 e2) Lt). reflexivity.
  - rewrite Z.compare_refl.
    change (Pos.compare_cont Eq (Z.to_pos m1) (Z.to_pos m2))
      with (Pos.compare (Z.to_pos m1) (Z.to_pos m2)).
    destruct (Pos.compare_spec (Z.to_pos m1) (Z.to_pos m2)) as [E | L | G];
      try reflexivity.
    apply Pos2Z.pos_lt_pos in G. rewrite !Z2Pos.id in G by lia. lia.
Qed.

Lemma canonical_digits (m : Z) :
  two52 <= m < two53 -> Zpos (digits2_pos (Z.to_pos m)) = 53.
Proof.
  intros H. apply digits2_pos_unique.
  rewrite Z2Pos.id by (unfold two52 in H; lia).
  change (2 ^ (53 - 1)) with two52. change (2 ^ 53) with two53. exact H.
Qed.

Lemma new_location_zero (nb : Z) : new_location nb 0 = loc_Exact.
Proof. unfold new_location. destruct (Z.even nb); reflexivity. Qed.

(** The quotient of a canonical double by one that is not smaller is a
    canonical double that is at most [1.0]. *)
Lemma ddiv_at_most_one (x y : double) (ma ea mt et : Z) :
  canonical x ma ea -> canonical y mt et ->
  below ma ea mt et -> -64 <= ea - et ->
  exists mz ez, canonical (ddiv x y) mz ez /\ -120 <= ez
    /\ below mz ez two52 (-52).
Proof.
  intros [-> Ha] [-> Ht] B L.
  assert (Pa : 0 < ma) by (unfold two52 in *; lia).
  assert (Pt : 0 < mt) by (unfold two52 in *; lia).
  assert (Hle : ea <= et) by (destruct B as [|[]]; lia).
  unfold ddiv, SFdiv, SFdiv_core_binary. cbn [xorb Zdigits2].
  rewrite !canonical_digits by assumption.
  unfold fexp, emin. rewrite Z.max_l by lia.
  rewrite Z.min_l by lia.
  replace (ea - et - (53 + ea - (53 + et) - 53)) with 53 by lia.
  rewrite Z.shiftl_mul_pow2 by lia. rewrite !Z2Pos.id by lia.
  change (2 ^ 53) with two53.
  pose proof (Z_div_mod (ma * two53) mt ltac:(lia)) as DM.
  destruct (Z.div_eucl (ma * two53) mt) as [q r]. destruct DM as [DM Hr].
  set (e' := 53 + ea - (53 + et) - 53).
  assert (Hq : two52 <= q < 2 * two53) by (unfold two52, two53 in *; nia).
  destruct q as [| pq | pq]; try (unfold two52 in Hq; lia).
  set (n := if Zpos pq <? two53 then 0 else 1).
  assert (Hn : 0 <= n <= 1) by (subst n; destruct (_ <? _); lia).
  assert (Hd : Zpos (digits2_pos pq) = 53 + n).
  { apply digits2_pos_unique. subst n.
    destruct (Zpos pq <? two53) eqn:E;
      [apply Z.ltb_lt in E | apply Z.ltb_ge in E].
    - change (2 ^ (53 + 0 - 1)) with two52. change (2 ^ (53 + 0)) with two53. lia.
    - change (2 ^ (53 + 1 - 1)) with two53.
      change (2 ^ (53 + 1)) with (2 * two53). lia. }
  assert (Hc : (n = 0 /\ Zpos pq < two53) \/ (n = 1 /\ two53 <= Zpos pq))
    by (subst n; destruct (Zpos pq <? two53) eqn:E;
        [apply Z.ltb_lt in E | apply Z.ltb_ge in E]; lia).
  clearbody n.
  rewrite (binary_round_aux_normal pq e' n) by (subst e'; lia).
  set (R := rounded (Zpos pq) (Z.to_nat n) (new_location mt r)).
  assert (HR : two52 <= R <= two53).
  { pose proof (truncated_range pq n Hd ltac:(lia)) as T.
    pose proof (rounded_bounds (Zpos pq) (Z.to_nat n) (new_location mt r)
                  ltac:(lia)) as F.
    rewrite Z2Nat.id in F by lia. fold R in F. lia. }
  destruct (normal_canonical R (e' + n) HR) as (mz & ez & C & V & E & Bump).
  exists mz, ez. split; [exact C |]. split; [subst e'; lia |].
  clear C.
  unfold below. destruct B as [Lt | [Eq Le]].
  - destruct (Z.eq_dec ez (e' + n + 1)) as [Eb | Nb].
    + rewrite (Bump Eb). subst e'. lia.
    + left. subst e'. lia.
  - subst et.
    destruct Hc as [[-> Q] | [-> Q]].
    + destruct (Z.eq_dec ez (e' + 0 + 1)) as [Eb | Nb].
      * rewrite (Bump Eb). subst e'. lia.
      * left. subst e'. lia.
    + (* the quotient reached [2^53]: the operands are equal *)
      assert (Zpos pq = two53 /\ r = 0) as [Eq0 Er0]
        by (unfold two52, two53 in *; nia).
      subst R. rewrite Er0, new_location_zero, Eq0 in V.
      change (rounded two53 (Z.to_nat 1) loc_Exact) with two52 in V.
      destruct (Z.eq_dec ez (e' + 1 + 1)) as [Eb | Nb].
      * rewrite (Bump Eb) in V. rewrite Eb in V.
        replace (e' + 1 + 1 - (e' + 1)) with 1 in V by lia.
        vm_compute in V. discriminate.
      * assert (Ez : ez = e' + 1) by lia. rewrite Ez in V.
        replace (e' + 1 - (e' + 1)) with 0 in V by lia.
        change (2 ^ 0) with 1 in V. right. subst e'. lia.
Qed.

Lemma d100_canonical : canonical d100 m100 (-46).
Proof. split; [reflexivity | unfold two52, two53, m100; lia]. Qed.

(** A canonical double that is at most [1.0], times [100.0], is a canonical
    double that is at most [100.0]. *)
Lemma dmul_hundred_at_most (z : double) (mz ez : Z) :
  canonical z mz ez -> -120 <= ez -> below mz ez two52 (-52) ->
  exists mr er, canonical (dmul z d100) mr er /\ below mr er m100 (-46).
Proof.
  intros [-> Hz] L B.
  assert (Pz : 0 < mz) by (unfold two52 in *; lia).
  unfold dmul, d100, SFmul. cbn [xorb].
  set (P := (Z.to_pos mz * 7036874417766400)%positive).
  assert (EP : Zpos P = mz * m100)
    by (subst P; rewrite Pos2Z.inj_mul, Z2Pos.id by lia; reflexivity).
  set (n := if Zpos P <? two105 then 52 else 53).
  assert (Hc : (n = 52 /\ Zpos P < two105) \/ (n = 53 /\ two105 <= Zpos P))
    by (subst n; destruct (Zpos P <? two105) eqn:E;
        [apply Z.ltb_lt in E | apply Z.ltb_ge in E]; lia).
  clearbody n.
  assert (Hd : Zpos (digits2_pos P) = 53 + n).
  { apply digits2_pos_unique. rewrite EP in *.
    destruct Hc as [[-> Q] | [-> Q]].
    - change (2 ^ (53 + 52 - 1)) with 20282409603651670423947251286016.
      change (2 ^ (53 + 52)) with two105.
      unfold two52, two53, two105, m100 in *; lia.
    - change (2 ^ (53 + 53 - 1)) with two105.
      change (2 ^ (53 + 53)) with 81129638414606681695789005144064.
      unfold two52, two53, two105, m100 in *; lia. }
  assert (Hn : 52 <= n <= 53) by lia.
  assert (Hez : ez <= -52) by (destruct B as [|[]]; lia).
  rewrite (binary_round_aux_normal P (ez + -46) n) by lia.
  set (R := rounded (Zpos P) (Z.to_nat n) loc_Exact).
  assert (HR : two52 <= R <= two53).
  { pose proof (truncated_range P n Hd ltac:(lia)) as T.
    pose proof (rounded_bounds (Zpos P) (Z.to_nat n) loc_Exact ltac:(lia)) as F.
    rewrite Z2Nat.id in F by lia. fold R in F. lia. }
  destruct (normal_canonical R (ez + -46 + n) HR) as (mr & er & C & V & E & Bump).
  exists mr, er. split; [exact C |]. clear C.
  assert (Hm : two52 <= m100 < two53) by (unfold two52, two53, m100; lia).
  unfold below.
  destruct Hc as [[-> Q] | [-> Q]].
  - (* the product has 105 bits *)
    destruct B as [Lt | [-> Le]].
    + destruct (Z.eq_dec er (ez + -46 + 52 + 1)) as [Eb | Nb].
      * rewrite (Bump Eb). lia.
      * left. lia.
    + (* [1.0 * 100.0] *)
      assert (Em : mz = two52) by lia.
      assert (ER : R = m100).
      { subst R. apply Z.le_antisymm.
        - apply rounded_le_multiple; [lia |]. rewrite EP, Em, Z2Nat.id by lia.
          unfold two52, m100. lia.
        - apply rounded_ge_multiple; [lia |]. rewrite EP, Em, Z2Nat.id by lia.
          unfold two52, m100. lia. }
      rewrite ER in V.
      destruct (Z.eq_dec er (-52 + -46 + 52 + 1)) as [Eb | Nb].
      * rewrite (Bump Eb), Eb in V. vm_compute in V. discriminate.
      * assert (Ee : er = -46) by lia. rewrite Ee in V.
        change (2 ^ (-46 - (-52 + -46 + 52))) with 1 in V. right. lia.
  - (* the product has 106 bits: the rounded mantissa stays below [m100] *)
    assert (Rle : R <= m100).
    { subst R. apply rounded_le_multiple; [lia |]. rewrite EP, Z2Nat.id by lia.
      change (2 ^ 53) with two53. nia. }
    assert (Ez : ez < -52).
    { destruct B as [Lt | [Ee Le]]; [assumption |].
      rewrite EP in Q. unfold two52, two105, m100 in *. lia. }
    destruct (Z.eq_dec er (ez + -46 + 53 + 1)) as [Eb | Nb].
    + rewrite (Bump Eb), Eb in V.
      replace (ez + -46 + 53 + 1 - (ez + -46 + 53)) with 1 in V by lia.
      unfold two52, two53, m100 in *. lia.
    + assert (Ee : er = ez + -46 + 53) by lia. rewrite Ee in V.
      replace (ez + -46 + 53 - (ez + -46 + 53)) with 0 in V by lia.
      change (2 ^ 0) with 1 in V.
      destruct (Z.eq_dec ez (-53)); [right | left]; lia.
Qed.

(** The percentage formula stays within [[0, 100]] whenever the numerator
    does not exceed the denominator. *)
Lemma percentage_in_range (a t : Z) :
  0 <= a <= t -> 0 < t < two64 ->
  let r := dmul (ddiv (double_of_Z a) (double_of_Z t)) d100 in
  dleb d0 r = true /\ dleb r d100 = true.
Proof.
  intros Ha Ht.
  destruct t as [| pt | pt]; try lia.
  destruct (double_of_Z_canonical pt ltac:(lia)) as (mt & et & Ct & Et & Vt).
  destruct a as [| pa | pa]; try lia.
  - destruct Ct as [-> _]. cbn. split; reflexivity.
  - destruct (double_of_Z_canonical pa ltac:(lia)) as (ma & ea & Ca & Ea & Va).
    assert (Bat : below ma ea mt et).
    { apply below_of_values; try lia.
      - destruct Ca; assumption.
      - destruct Ct; assumption.
      - rewrite Va, Vt. apply Z.mul_le_mono_nonneg_r; [lia |].
        apply nearest_mono. lia. }
    destruct (ddiv_at_most_one _ _ _ _ _ _ Ca Ct Bat ltac:(lia))
      as (mz & ez & Cz & Lz & Bz).
    destruct (dmul_hundred_at_most _ _ _ Cz Lz Bz) as (mr & er & Cr & Br).
    cbv zeta. split.
    + destruct Cr as [-> _]. reflexivity.
    + exact (dleb_of_below _ _ _ _ _ _ Cr d100_canonical Br).
Qed.

(** * The CPU usage estimator *)

Lemma u64_small (z : Z) : 0 <= z < two64 -> u64 z = z.
Proof. intros H. unfold u64. apply Z.mod_small. exact H. Qed.

Lemma u64_range (z : Z) : 0 <= u64 z < two64.
Proof. unfold u64. apply Z.mod_pos_bound. reflexivity. Qed.

Lemma calc_cpu_usage_unfold (p : platform) (prev curr : cpu_times_t) :
  calc_cpu_usage p prev curr =
  if total_delta p prev curr =? 0 then d0
  else dmul (ddiv (double_of_Z (active_delta p prev curr))
                  (double_of_Z (total_delta p prev curr))) d100.
Proof. reflexivity. Qed.

(** A double divided by itself is [1.0]. *)
Lemma ddiv_self (m : positive) (e : Z) :
  ddiv (S754_finite false m e) (S754_finite false m e) = d1.
Proof.
  unfold ddiv, SFdiv, SFdiv_core_binary. cbn [xorb].
  rewrite !Z.sub_diag.
  change (Z.min (fexp 53 1024 0) 0) with (-53).
  change (0 - -53) with 53.
  rewrite Z.shiftl_mul_pow2 by lia.
  assert (E : Z.div_eucl (Zpos m * 2 ^ 53) (Zpos m) = (2 ^ 53, 0)).
  { rewrite (surjective_pairing (Z.div_eucl _ _)).
    change (fst (Z.div_eucl ?a ?b)) with (a / b).
    change (snd (Z.div_eucl ?a ?b)) with (a mod b).
    rewrite Z.mul_comm, Z.div_mul, Z.mod_mul by lia. reflexivity. }
  rewrite E, new_location_zero. reflexivity.
Qed.

Lemma double_of_Z_finite (z : Z) :
  0 < z < two64 -> exists m e, double_of_Z z = S754_finite false m e.
Proof.
  intros Hz. destruct z as [| p | p]; try lia.
  destruct (double_of_Z_canonical p ltac:(lia)) as (m & e & [-> _] & _).
  eauto.
Qed.

(** [(double)n / n * 100.0] is [100.0] for every non-zero 64-bit [n]. *)
Lemma whole_is_hundred (n : Z) :
  0 < n < two64 -> dmul (ddiv (double_of_Z n) (double_of_Z n)) d100 = d100.
Proof.
  intros Hn. destruct (double_of_Z_finite n Hn) as (m & e & ->).
  rewrite ddiv_self. reflexivity.
Qed.

Ltac invert_fields :=
  unfold valid_sample, non_decreasing, ticks, fields, in_u64 in *;
  repeat match goal with
         | H : Forall _ (_ :: _) |- _ => inversion H; clear H; subst
         | H : Forall2 _ (_ :: _) (_ :: _) |- _ => inversion H; clear H; subst
         | H : Forall _ [] |- _ => clear H
         | H : Forall2 _ [] [] |- _ => clear H
         end;
  cbn [fold_right] in *.

(** Without wrap-around the sums the code forms are the mathematical ones. *)
Lemma sums_exact (p : platform) (t : cpu_times_t) :
  valid_sample p t -> ticks p t < two64 ->
  active_of p t = ticks p t - idle t /\ total_of p t = ticks p t.
Proof.
  intros V T. unfold total_of, active_of. destruct p; invert_fields.
  - rewrite (u64_small (user t + nice t)) by lia.
    rewrite (u64_small (user t + nice t + system t)) by lia.
    rewrite u64_small by lia. lia.
  - rewrite (u64_small (user t + nice t)) by lia.
    rewrite (u64_small (user t + nice t + system t)) by lia.
    rewrite (u64_small (user t + nice t + system t + intr t)) by lia.
    rewrite u64_small by lia. lia.
Qed.

(** Counters that never decrease make active and idle time grow. *)
Lemma non_decreasing_ticks (p : platform) (prev curr : cpu_times_t) :
  non_decreasing p prev curr ->
  active_ticks p prev <= active_ticks p curr /\ idle prev <= idle curr.
Proof. intros M. unfold active_ticks. destruct p; invert_fields; lia. Qed.

(** C4: whenever the total delta [curr_total - prev_total] is zero (in
    particular for a sample paired with itself) [calc_cpu_usage] returns
    exactly [0.0]; the division is never reached. *)
Theorem calc_cpu_usage_zero_delta (p : platform) (prev curr : cpu_times_t) :
  (total_delta p prev curr = 0 -> calc_cpu_usage p prev curr = d0)
  /\ calc_cpu_usage p curr curr = d0.
Proof.
  split.
  - intros H. rewrite calc_cpu_usage_unfold, H. reflexivity.
  - rewrite calc_cpu_usage_unfold. unfold total_delta.
    rewrite Z.sub_diag. reflexivity.
Qed.

Lemma calc_cpu_usage_zero_delta_witness :
  total_delta Linux (sample 10 0 5 100) (sample 11 0 5 99) = 0
  /\ calc_cpu_usage Linux (sample 10 0 5 100) (sample 11 0 5 99) = d0.
Proof.
  split; [reflexivity |].
  apply (proj1 (calc_cpu_usage_zero_delta Linux (sample 10 0 5 100)
                  (sample 11 0 5 99))).
  reflexivity.
Defined.

(** C5: when the total delta is non-zero and the active delta equals it
    (all elapsed time was active) [calc_cpu_usage] returns exactly
    [100.0]. *)
Theorem calc_cpu_usage_all_active (p : platform) (prev curr : cpu_times_t) :
  total_delta p prev curr <> 0 ->
  active_delta p prev curr = total_delta p prev curr ->
  calc_cpu_usage p prev curr = d100.
Proof.
  intros Nz Eq. rewrite calc_cpu_usage_unfold, Eq.
  destruct (total_delta p prev curr =? 0) eqn:E;
    [apply Z.eqb_eq in E; contradiction |].
  apply whole_is_hundred.
  pose proof (u64_range (total_of p curr - total_of p prev)) as R.
  fold (total_delta p prev curr) in R. lia.
Qed.

Lemma calc_cpu_usage_all_active_witness :
  calc_cpu_usage FreeBSD
    {| user := 100; nice := 2; system := 30; idle := 500; intr := 7 |}
    {| user := 150; nice := 2; system := 41; idle := 500; intr := 9 |}
  = d100.
Proof.
  apply calc_cpu_usage_all_active; [discriminate | reflexivity].
Defined.

(** C1 (as amended): for samples whose counters fit 64 bits, whose active
    time (user + nice + system, plus interrupt on FreeBSD) and idle time
    have not decreased from [prev] to [curr] (as is the case when no counter
    decreases) and whose sum at [curr] stays below [2^64],
    [calc_cpu_usage] returns a double in [[0, 100]]. *)
Theorem calc_cpu_usage_in_range (p : platform) (prev curr : cpu_times_t) :
  valid_sample p prev -> valid_sample p curr ->
  active_ticks p prev <= active_ticks p curr -> idle prev <= idle curr ->
  ticks p curr < two64 ->
  in_percent_range (calc_cpu_usage p prev curr) = true.
Proof.
  intros Vp Vc Ma Mi T. unfold active_ticks in Ma.
  assert (Tp : ticks p prev < two64) by lia.
  destruct (sums_exact p prev Vp Tp) as [Ap Sp].
  destruct (sums_exact p curr Vc T) as [Ac Sc].
  assert (Ip : 0 <= idle prev) by (destruct p; invert_fields; lia).
  assert (Np : 0 <= ticks p prev - idle prev) by (destruct p; invert_fields; lia).
  rewrite calc_cpu_usage_unfold. unfold total_delta, active_delta.
  rewrite Ap, Sp, Ac, Sc.
  rewrite (u64_small (ticks p curr - ticks p prev)) by lia.
  rewrite (u64_small (ticks p curr - idle curr - (ticks p prev - idle prev)))
    by lia.
  unfold in_percent_range.
  destruct (ticks p curr - ticks p prev =? 0) eqn:E; [reflexivity |].
  apply Z.eqb_neq in E.
  destruct (percentage_in_range
              (ticks p curr - idle curr - (ticks p prev - idle prev))
              (ticks p curr - ticks p prev) ltac:(lia) ltac:(lia)) as [L U].
  rewrite L, U. reflexivity.
Qed.

Lemma calc_cpu_usage_in_range_witness :
  in_percent_range
    (calc_cpu_usage Linux (sample 1000 20 300 5000) (sample 1040 20 310 5050))
  = true.
Proof.
  apply calc_cpu_usage_in_range.
  - repeat constructor; unfold two64; cbn; lia.
  - repeat constructor; unfold two64; cbn; lia.
  - cbn. lia.
  - cbn. lia.
  - reflexivity.
Defined.

(** C1 as stated does not hold: a pair whose total advances while one
    counter falls back, and a pair of growing counters whose sum passes
    [2^64], both satisfy [curr.total >= prev.total] and yield a value far
    above [100.0]. *)
Lemma calc_cpu_usage_out_of_range :
  (valid_sample Linux fallback_prev /\ valid_sample Linux fallback_curr
   /\ total_of Linux fallback_prev <= total_of Linux fallback_curr
   /\ ticks Linux fallback_prev <= ticks Linux fallback_curr
   /\ in_percent_range (calc_cpu_usage Linux fallback_prev fallback_curr)
      = false)
  /\ (valid_sample Linux overflow_prev /\ valid_sample Linux overflow_curr
      /\ non_decreasing Linux overflow_prev overflow_curr
      /\ total_of Linux overflow_prev <= total_of Linux overflow_curr
      /\ ticks Linux overflow_prev <= ticks Linux overflow_curr
      /\ in_percent_range (calc_cpu_usage Linux overflow_prev overflow_curr)
         = false).
Proof.
  repeat split; try (repeat constructor; unfold two64; cbn; lia);
    try (vm_compute; discriminate).
Qed.

(** * Scanning what the kernel prints *)

Lemma skip_space_idempotent (s : string) : skip_space (skip_space s) = skip_space s.
Proof.
  induction s as [| c r IH]; [reflexivity |].
  cbn [skip_space]. destruct (isspace c) eqn:E; [exact IH |].
  cbn [skip_space]. rewrite E. reflexivity.
Qed.

(** White space before a conversion is skipped by the conversion itself. *)
Lemma conv_ull_skip_space (s : string) : conv_ull (skip_space s) = conv_ull s.
Proof. unfold conv_ull. rewrite skip_space_idempotent. reflexivity. Qed.

Lemma digit_char_spec (d : Z) :
  0 <= d <= 9 ->
  isdigit (digit_char d) = true /\ digit_value (digit_char d) = d
  /\ isspace (digit_char d) = false
  /\ Ascii.eqb (digit_char d) "-" = false
  /\ Ascii.eqb (digit_char d) "+" = false.
Proof.
  intros H.
  assert (C : d = 0 \/ d = 1 \/ d = 2 \/ d = 3 \/ d = 4 \/ d = 5 \/ d = 6
              \/ d = 7 \/ d = 8 \/ d = 9) by lia.
  repeat (destruct C as [-> | C]; [repeat split |]); subst; repeat split.
Qed.

Lemma render_digits_append (fuel : nat) (n : Z) (acc rest : string) :
  (render_digits fuel n acc ++ rest)%string = render_digits fuel n (acc ++ rest).
Proof.
  revert n acc. induction fuel as [| fuel IH]; intros n acc; [reflexivity |].
  cbn [render_digits]. destruct (n <? 10); [reflexivity |].
  rewrite IH. reflexivity.
Qed.

(** Scanning the digits of [n] from zero arrives at [n]. *)
Lemma scan_render_digits (fuel : nat) (n : Z) (rest : string) :
  0 <= n < 10 ^ Z.of_nat fuel ->
  scan_digits 0 (render_digits fuel n rest) = scan_digits n rest.
Proof.
  revert n rest. induction fuel as [| fuel IH]; intros n rest H.
  - cbn in H. assert (n = 0) by lia. subst n. reflexivity.
  - cbn [render_digits].
    assert (D : 0 <= n mod 10 <= 9) by (pose proof (Z.mod_pos_bound n 10); lia).
    destruct (digit_char_spec (n mod 10) D) as (Dg & Dv & _).
    destruct (n <? 10) eqn:E; [apply Z.ltb_lt in E | apply Z.ltb_ge in E].
    + cbn [scan_digits]. rewrite Dg, Dv, Z.mod_small by lia. reflexivity.
    + rewrite IH.
      * cbn [scan_digits]. rewrite Dg, Dv. f_equal.
        pose proof (Z.div_mod n 10). lia.
      * rewrite Nat2Z.inj_succ, Z.pow_succ_r in H by lia.
        split; [apply Z.div_pos; lia |].
        apply Z.div_lt_upper_bound; lia.
Qed.

(** A rendered number starts with a digit. *)
Lemma render_digits_head (fuel : nat) (n : Z) (acc : string) :
  0 <= n ->
  exists d r, render_digits (S fuel) n acc = String (digit_char d) r
              /\ 0 <= d <= 9.
Proof.
  revert n acc. induction fuel as [| fuel IH]; intros n acc H.
  - cbn [render_digits]. exists (n mod 10), acc.
    pose proof (Z.mod_pos_bound n 10). destruct (n <? 10); split; auto; lia.
  - change (render_digits (S (S fuel)) n acc)
      with (let acc' := String (digit_char (n mod 10)) acc in
            if n <? 10 then acc' else render_digits (S fuel) (n / 10) acc').
    cbv zeta. destruct (n <? 10).
    + exists (n mod 10), acc. pose proof (Z.mod_pos_bound n 10). split; auto; lia.
    + apply IH. apply Z.div_pos; lia.
Qed.

Lemma scan_digits_stop (n : Z) (s : string) :
  no_digit_ahead s -> scan_digits n s = (n, s).
Proof.
  destruct s as [| c r]; [reflexivity |]. cbn. intros ->. reflexivity.
Qed.

(** One conversion reads back a rendered 64-bit value. *)
Lemma conv_ull_render (n : Z) (rest : string) :
  in_u64 n -> no_digit_ahead rest ->
  conv_ull (render_ull n ++ rest) = Converted n rest.
Proof.
  intros R N. unfold in_u64 in R. unfold render_ull.
  rewrite render_digits_append. cbn [String.append].
  destruct (render_digits_head 19 n rest ltac:(lia)) as (d & r & E & D).
  destruct (digit_char_spec d D) as (Dg & _ & Sp & Mi & Pl).
  unfold conv_ull. rewrite E. cbn [skip_space]. rewrite Sp, Mi, Pl.
  cbn [orb]. rewrite Dg, <- E.
  rewrite scan_render_digits
    by (unfold two64 in R; change (10 ^ Z.of_nat 20) with 100000000000000000000; lia).
  rewrite scan_digits_stop by exact N.
  unfold strtoull_value, ULLONG_MAX.
  replace (two64 - 1 <? n) with false by (symmetry; apply Z.ltb_ge; lia).
  reflexivity.
Qed.

Lemma conv_ull_space (s : string) : conv_ull (String " " s) = conv_ull s.
Proof. reflexivity. Qed.

Lemma no_digit_ahead_space (s : string) : no_digit_ahead (String " " s).
Proof. reflexivity. Qed.

(** The aggregate-CPU line as the kernel prints it offers its first four
    numbers. *)
Lemma cpu_fields_rendered (u n s i : Z) (tail : string) :
  in_u64 u -> in_u64 n -> in_u64 s -> in_u64 i -> no_digit_ahead tail ->
  cpu_fields ("cpu  " ++ render_ull u ++ " " ++ render_ull n ++ " "
              ++ render_ull s ++ " " ++ render_ull i ++ tail)
  = [u; n; s; i].
Proof.
  intros Hu Hn Hs Hi Ht. unfold cpu_fields.
  cbn [String.append after_cpu Ascii.eqb Bool.eqb andb].
  cbn [leading_unsigned]. rewrite !conv_ull_space.
  rewrite conv_ull_render by (auto using no_digit_ahead_space).
  rewrite conv_ull_space.
  rewrite conv_ull_render by (auto using no_digit_ahead_space).
  rewrite conv_ull_space.
  rewrite conv_ull_render by (auto using no_digit_ahead_space).
  rewrite conv_ull_space.
  rewrite conv_ull_render by assumption.
  reflexivity.
Qed.

(** A /proc/meminfo line as the kernel prints it gives its value. *)
Lemma scan_key_rendered (n : Z) :
  in_u64 n ->
  scan_key "MemTotal: %lu kB" ("MemTotal:       " ++ render_ull n ++ " kB")
  = Some n.
Proof.
  intros Hn. unfold scan_key, sscanf.
  change (directives_of "MemTotal: %lu kB")
    with [Lit "M"; Lit "e"; Lit "m"; Lit "T"; Lit "o"; Lit "t"; Lit "a";
          Lit "l"; Lit ":"; Space; ConvU; Space; Lit "k"; Lit "B"].
  cbn [String.append run_directives Ascii.eqb Bool.eqb].
  rewrite conv_ull_skip_space, !conv_ull_space.
  rewrite conv_ull_render by (auto using no_digit_ahead_space).
  reflexivity.
Qed.

(** * The Linux CPU collector *)

Lemma cpu_format :
  directives_of "cpu  %llu %llu %llu %llu"
  = [Lit "c"; Lit "p"; Lit "u"; Space; Space; ConvU; Space; ConvU; Space;
     ConvU; Space; ConvU].
Proof. reflexivity. Qed.

(** What [sscanf] returns on the aggregate-CPU format, in terms of the
    integers the line offers. *)
Lemma sscanf_cpu_line (buf : string) :
  let (ret, vals) := sscanf buf "cpu  %llu %llu %llu %llu" in
  ((ret <? 4) = true <-> (List.length (cpu_fields buf) < 4)%nat)
  /\ ((ret <? 4) = false -> vals = cpu_fields buf).
Proof.
  unfold sscanf. rewrite cpu_format. unfold cpu_fields, after_cpu.
  destruct buf as [| c1 [| c2 [| c3 r]]]; cbn [run_directives stop_count];
    try (split; [split; intros; [cbn; lia | reflexivity] | discriminate]).
  - destruct (Ascii.eqb "c" c1); cbn [run_directives stop_count];
      split; try discriminate; split; intros; try reflexivity; cbn; lia.
  - destruct (Ascii.eqb "c" c1); cbn [run_directives stop_count andb];
      [destruct (Ascii.eqb "p" c2); cbn [run_directives stop_count andb] |];
      split; try discriminate; split; intros; try reflexivity; cbn; lia.
  - destruct (Ascii.eqb "c" c1); cbn [run_directives stop_count andb];
      [destruct (Ascii.eqb "p" c2); cbn [run_directives stop_count andb];
       [destruct (Ascii.eqb "u" c3); cbn [run_directives stop_count andb] | ] |];
      try (split; try discriminate; split; intros; try reflexivity; cbn; lia).
    rewrite skip_space_idempotent, conv_ull_skip_space.
    cbn [leading_unsigned].
    destruct (conv_ull r) as [v1 r1 | |]; cbn [app stop_count List.length];
      try (split; try discriminate; split; intros; try reflexivity; cbn; lia).
    rewrite conv_ull_skip_space.
    destruct (conv_ull r1) as [v2 r2 | |]; cbn [app stop_count List.length];
      try (split; try discriminate; split; intros; try reflexivity; cbn; lia).
    rewrite conv_ull_skip_space.
    destruct (conv_ull r2) as [v3 r3 | |]; cbn [app stop_count List.length];
      try (split; try discriminate; split; intros; try reflexivity; cbn; lia).
    rewrite conv_ull_skip_space.
    destruct (conv_ull r3) as [v4 r4 | |]; cbn [app stop_count List.length];
      try (split; try discriminate; split; intros; try reflexivity; cbn; lia).
    split; [split; [discriminate | cbn; lia] | reflexivity].
Qed.

(** C6: once the first line of /proc/stat has been read, the collector
    fails with the parse diagnostic (returning -1 and storing nothing)
    exactly when fewer than four unsigned integers can be extracted after
    the [cpu] prefix; when four are there it succeeds and stores them as
    user, nice, system and idle, which is the case of every line that
    carries four or more decimal counters after [cpu]. *)
Theorem get_cpu_times_parse (content buf rest : string) :
  fgets 256 content = Some (buf, rest) ->
  let r := Linux.get_cpu_times (Some content) in
  ((List.length (cpu_fields buf) < 4)%nat <-> r = Fail parse_failure)
  /\ (r = Fail parse_failure -> retcode r = -1 /\ stored r = None)
  /\ (forall u n s i, cpu_fields buf = [u; n; s; i] -> r = Ok (sample u n s i))
  /\ (forall u n s i tail,
        in_u64 u -> in_u64 n -> in_u64 s -> in_u64 i -> no_digit_ahead tail ->
        buf = "cpu  " ++ render_ull u ++ " " ++ render_ull n ++ " "
              ++ render_ull s ++ " " ++ render_ull i ++ tail ->
        r = Ok (sample u n s i)).
Proof.
  intros F. cbv zeta. unfold Linux.get_cpu_times. rewrite F.
  pose proof (sscanf_cpu_line buf) as S.
  destruct (sscanf buf "cpu  %llu %llu %llu %llu") as [ret vals].
  destruct S as [Lt Ge]. fold parse_failure.
  assert (Four : forall u n s i,
             cpu_fields buf = [u; n; s; i] ->
             (if ret <? 4 then Fail parse_failure
              else Ok {| user := assigned vals 0; nice := assigned vals 1;
                         system := assigned vals 2; idle := assigned vals 3;
                         intr := 0 |})
             = Ok (sample u n s i)).
  { intros u n s i H. destruct (ret <? 4) eqn:E.
    - pose proof (proj1 Lt eq_refl) as L. rewrite H in L. cbn in L. lia.
    - rewrite (Ge eq_refl), H. reflexivity. }
  split; [| split; [| split]].
  - destruct (ret <? 4) eqn:E.
    + split; [reflexivity | intros _; apply Lt; reflexivity].
    + split; [| discriminate]. intros H. apply (proj2 Lt) in H. discriminate.
  - destruct (ret <? 4); [intros _; split; reflexivity | discriminate].
  - exact Four.
  - intros u n s i tail Hu Hn Hs Hi Ht ->. apply Four.
    apply cpu_fields_rendered; assumption.
Qed.

Lemma get_cpu_times_parse_witness :
  Linux.get_cpu_times (Some stat_without_idle) = Fail parse_failure
  /\ Linux.get_cpu_times (Some stat_complete) = Ok (sample 4705 150 1120 16250).
Proof.
  split.
  - apply (proj1 (get_cpu_times_parse stat_without_idle
                    (String.append "cpu  4705 150 1120" (String newline ""))
                    (String.append "cpu0 1393 50 560 7000" (String newline ""))
                    eq_refl)).
    vm_compute. lia.
  - apply (proj1 (proj2 (proj2 (get_cpu_times_parse stat_complete
                                  stat_complete "" eq_refl)))).
    reflexivity.
Defined.

(** * The Linux memory collector *)

(** C7: on the fixture (MemTotal 24670208 kB, MemAvailable 23488000 kB)
    [get_memory_usage] succeeds; the total is exactly 23.52734375 GB, the
    used amount exactly 1.12744140625 GB and the percentage 4.79205 up to
    rounding, so each is within one hundredth of 23.52, 1.13 and 4.79. *)
Theorem get_memory_usage_fixture :
  exists u, Linux.get_memory_usage (Some meminfo_fixture) = Ok u
    /\ has_value (total_gb u) 23.52734375 = true
    /\ has_value (used_gb u) 1.12744140625 = true
    /\ approx (percent_used u) 4.79205 0.00001 = true
    /\ approx (total_gb u) 23.52 0.01 = true
    /\ approx (used_gb u) 1.13 0.01 = true
    /\ approx (percent_used u) 4.79 0.01 = true.
Proof.
  eexists. split; [vm_compute; reflexivity |].
  repeat split; vm_compute; reflexivity.
Qed.

Lemma fgets_chars_length (room : nat) (s l rest : string) :
  fgets_chars room s = (l, rest) ->
  (String.length l + String.length rest = String.length s)%nat.
Proof.
  revert s l rest. induction room as [| room IH]; intros s l rest H.
  - cbn in H. injection H as <- <-. reflexivity.
  - destruct s as [| c r]; cbn [fgets_chars] in H.
    + injection H as <- <-. reflexivity.
    + destruct (Ascii.eqb c newline).
      * injection H as <- <-. reflexivity.
      * destruct (fgets_chars room r) as [l' rest'] eqn:E.
        injection H as <- <-. apply IH in E. cbn [String.length]. lia.
Qed.

(** Every successful [fgets] into a buffer of two bytes or more consumes at
    least one character. *)
Lemma fgets_progress (size : nat) (content line rest : string) :
  (2 <= size)%nat ->
  fgets size content = Some (line, rest) ->
  (String.length rest < String.length content)%nat.
Proof.
  intros S2. destruct size as [| [| room]]; try lia.
  unfold fgets. destruct content as [| c r]; [discriminate |].
  replace (S (S room) - 1)%nat with (S room) by lia.
  cbn [fgets_chars]. destruct (Ascii.eqb c newline).
  - intros H. injection H as <- <-. cbn [String.length]. lia.
  - destruct (fgets_chars room r) as [l' rest'] eqn:E.
    apply fgets_chars_length in E.
    intros H. injection H as <- <-. cbn [String.length]. lia.
Qed.

Lemma fgets_shrinks (content line rest : string) :
  fgets 256 content = Some (line, rest) ->
  (String.length rest < String.length content)%nat.
Proof. apply fgets_progress. lia. Qed.

Lemma fold_left_cons {A B : Type} (f : A -> B -> A) (x : B) (l : list B) (a : A) :
  fold_left f (x :: l) a = fold_left f l (f a x).
Proof. reflexivity. Qed.

Lemma meminfo_loop_S (fuel : nat) (content : string) (mt ma : Z) :
  Linux.meminfo_loop (S fuel) content mt ma
  = match fgets 256 content with
    | None => (mt, ma)
    | Some (line, rest) =>
        let (r1, v1) := sscanf line "MemTotal: %lu kB" in
        if r1 =? 1 then Linux.meminfo_loop fuel rest (assigned v1 0) ma
        else
          let (r2, v2) := sscanf line "MemAvailable: %lu kB" in
          if r2 =? 1 then Linux.meminfo_loop fuel rest mt (assigned v2 0)
          else Linux.meminfo_loop fuel rest mt ma
    end.
Proof. reflexivity. Qed.

Lemma fgets_lines_S (fuel : nat) (content : string) :
  fgets_lines (S fuel) content
  = match fgets 256 content with
    | None => []
    | Some (line, rest) => line :: fgets_lines fuel rest
    end.
Proof. reflexivity. Qed.

Lemma meminfo_step_sscanf (mt ma : Z) (line : string) :
  meminfo_step (mt, ma) line
  = let (r1, v1) := sscanf line "MemTotal: %lu kB" in
    if r1 =? 1 then (assigned v1 0, ma)
    else
      let (r2, v2) := sscanf line "MemAvailable: %lu kB" in
      if r2 =? 1 then (mt, assigned v2 0) else (mt, ma).
Proof.
  unfold meminfo_step, scan_key.
  destruct (sscanf line "MemTotal: %lu kB") as [r1 v1].
  destruct (r1 =? 1); [reflexivity |].
  destruct (sscanf line "MemAvailable: %lu kB") as [r2 v2].
  destruct (r2 =? 1); reflexivity.
Qed.

(** The loop is a fold over the lines [fgets] delivers. *)
Lemma meminfo_loop_fold (fuel : nat) (content : string) (mt ma : Z) :
  Linux.meminfo_loop fuel content mt ma
  = fold_left meminfo_step (fgets_lines fuel content) (mt, ma).
Proof.
  revert content mt ma. induction fuel as [| fuel IH]; intros content mt ma;
    [reflexivity |].
  rewrite meminfo_loop_S, fgets_lines_S.
  destruct (fgets 256 content) as [[line rest] |]; [| reflexivity].
  rewrite fold_left_cons, meminfo_step_sscanf.
  destruct (sscanf line "MemTotal: %lu kB") as [r1 v1].
  destruct (r1 =? 1); [apply IH |].
  destruct (sscanf line "MemAvailable: %lu kB") as [r2 v2].
  destruct (r2 =? 1); apply IH.
Qed.

(** [String.length content] reads suffice: more fuel changes nothing. *)
Lemma fgets_lines_enough (fuel : nat) (content : string) :
  (String.length content <= fuel)%nat ->
  fgets_lines fuel content = lines_of content.
Proof.
  unfold lines_of. revert content.
  induction fuel as [fuel IH] using lt_wf_ind. intros content L.
  destruct fuel as [| fuel].
  - assert (E : String.length content = 0%nat) by lia. rewrite E. reflexivity.
  - destruct (String.length content) as [| k] eqn:E.
    + destruct content; [reflexivity | discriminate].
    + cbn [fgets_lines].
      destruct (fgets 256 content) as [[line rest] |] eqn:F; [| reflexivity].
      apply fgets_shrinks in F. f_equal.
      rewrite (IH fuel) by lia. rewrite (IH k) by lia. reflexivity.
Qed.

Lemma meminfo_loop_enough (fuel : nat) (content : string) (mt ma : Z) :
  (String.length content <= fuel)%nat ->
  Linux.meminfo_loop fuel content mt ma
  = Linux.meminfo_loop (String.length content) content mt ma.
Proof.
  intros L. rewrite !meminfo_loop_fold, fgets_lines_enough by assumption.
  reflexivity.
Qed.

(** The values [sscanf] assigns fit 64 bits. *)
Lemma scan_digits_nonneg (s : string) (acc : Z) :
  0 <= acc -> 0 <= fst (scan_digits acc s).
Proof.
  revert acc. induction s as [| c r IH]; intros acc H; [exact H |].
  cbn [scan_digits]. destruct (isdigit c) eqn:D; [| exact H].
  apply IH. unfold isdigit in D. unfold digit_value. lia.
Qed.

Lemma strtoull_value_range (neg : bool) (v : Z) :
  0 <= v -> in_u64 (strtoull_value neg v).
Proof.
  intros H. unfold strtoull_value, in_u64, ULLONG_MAX.
  assert (T : two64 = 18446744073709551616) by reflexivity.
  destruct (two64 - 1 <? v) eqn:E;
    [apply Z.ltb_lt in E | apply Z.ltb_ge in E];
    destruct neg; try apply u64_range; lia.
Qed.

Lemma conv_ull_range (s rest : string) (v : Z) :
  conv_ull s = Converted v rest -> in_u64 v.
Proof.
  unfold conv_ull. destruct (skip_space s) as [| c r]; [discriminate |].
  cbv zeta.
  destruct (if Ascii.eqb c "-" || Ascii.eqb c "+" then r else String c r)
    as [| d b]; [discriminate |].
  destruct (isdigit d); [| discriminate].
  pose proof (scan_digits_nonneg (String d b) 0 ltac:(lia)) as N.
  destruct (scan_digits 0 (String d b)) as [w rest']. cbn [fst] in N.
  intros H. injection H as <- _. apply strtoull_value_range. exact N.
Qed.

Lemma run_directives_range (ds : list directive) (s : string) (vals : list Z) :
  Forall in_u64 vals -> Forall in_u64 (snd (run_directives ds s vals)).
Proof.
  revert s vals. induction ds as [| d ds IH]; intros s vals H; [exact H |].
  destruct d; cbn [run_directives].
  - destruct s as [| c' r]; [exact H |].
    destruct (Ascii.eqb c c'); [apply IH |]; exact H.
  - apply IH. exact H.
  - destruct (conv_ull s) as [v rest | |] eqn:E; try exact H.
    apply IH. apply Forall_app. split; [exact H |].
    constructor; [eapply conv_ull_range; exact E | constructor].
Qed.

Lemma scan_key_range (fmt line : string) (v : Z) :
  scan_key fmt line = Some v -> in_u64 v.
Proof.
  unfold scan_key, sscanf.
  pose proof (run_directives_range (directives_of fmt) line [] (Forall_nil _))
    as R.
  destruct (run_directives (directives_of fmt) line []) as [r vals].
  cbn [snd] in R. destruct (r =? 1); [| discriminate].
  intros H. injection H as <-. unfold assigned.
  destruct vals as [| w ws]; [unfold in_u64, two64; cbn; lia |].
  inversion R; assumption.
Qed.

Lemma last_value_cons (fmt l : string) (ls : list string) :
  last_value fmt (l :: ls)
  = match last_value fmt ls with
    | Some v => Some v
    | None => scan_key fmt l
    end.
Proof. reflexivity. Qed.

(** What the fold leaves in [mem_total] and [mem_available]. *)
Lemma fold_meminfo_total (lines : list string) (acc : Z * Z) :
  fst (fold_left meminfo_step lines acc)
  = match last_value "MemTotal: %lu kB" lines with
    | Some v => v
    | None => fst acc
    end.
Proof.
  revert acc. induction lines as [| l ls IH]; intros acc; [reflexivity |].
  rewrite fold_left_cons, last_value_cons, IH.
  destruct (last_value "MemTotal: %lu kB" ls) as [v |]; [reflexivity |].
  unfold meminfo_step.
  destruct (scan_key "MemTotal: %lu kB" l) as [v |]; [reflexivity |].
  destruct (scan_key "MemAvailable: %lu kB" l); reflexivity.
Qed.

Lemma fold_meminfo_available (lines : list string) (acc : Z * Z) :
  Forall (fun l => scan_key "MemAvailable: %lu kB" l = None) lines ->
  snd (fold_left meminfo_step lines acc) = snd acc.
Proof.
  intros H. revert acc. induction H as [| l ls Hl _ IH]; intros acc;
    [reflexivity |].
  rewrite fold_left_cons, IH. unfold meminfo_step. rewrite Hl.
  destruct (scan_key "MemTotal: %lu kB" l); reflexivity.
Qed.

Lemma last_value_range (fmt : string) (lines : list string) (v : Z) :
  last_value fmt lines = Some v -> in_u64 v.
Proof.
  induction lines as [| l ls IH]; [discriminate |].
  rewrite last_value_cons. destruct (last_value fmt ls) as [w |].
  - intros H. injection H as <-. apply IH. reflexivity.
  - apply scan_key_range.
Qed.

(** C10: when no line of /proc/meminfo yields a MemAvailable value and the
    (last) MemTotal line carries a non-zero value [n], [get_memory_usage]
    succeeds with the used amount equal to the total and exactly 100.0
    percent used. *)
Theorem get_memory_usage_without_available (content : string) (n : Z) :
  Forall (fun l => scan_key "MemAvailable: %lu kB" l = None) (lines_of content) ->
  last_value "MemTotal: %lu kB" (lines_of content) = Some n ->
  n <> 0 ->
  Linux.get_memory_usage (Some content)
  = Ok {| used_gb := kb_to_gb n; total_gb := kb_to_gb n; percent_used := d100 |}.
Proof.
  intros NoAvail Total Nz. unfold Linux.get_memory_usage.
  pose proof (meminfo_loop_fold (String.length content) content 0 0) as F.
  fold (lines_of content) in F.
  pose proof (fold_meminfo_total (lines_of content) (0, 0)) as T.
  pose proof (fold_meminfo_available (lines_of content) (0, 0) NoAvail) as A.
  rewrite <- F in T, A. rewrite Total in T.
  destruct (Linux.meminfo_loop (String.length content) content 0 0)
    as [mem_total mem_available].
  cbn [fst snd] in T, A. subst mem_total mem_available.
  pose proof (last_value_range _ _ _ Total) as R. unfold in_u64 in R.
  destruct (n =? 0) eqn:E; [apply Z.eqb_eq in E; contradiction |].
  rewrite Z.sub_0_r, u64_small by exact R.
  rewrite whole_is_hundred by lia. reflexivity.
Qed.

Lemma get_memory_usage_without_available_witness :
  Linux.get_memory_usage (Some meminfo_without_available)
  = Ok {| used_gb := kb_to_gb 8052444; total_gb := kb_to_gb 8052444;
          percent_used := d100 |}.
Proof.
  apply get_memory_usage_without_available.
  - let l := eval vm_compute in (lines_of meminfo_without_available) in
    change (lines_of meminfo_without_available) with l.
    repeat (constructor; [vm_compute; reflexivity |]). constructor.
  - vm_compute. reflexivity.
  - discriminate.
Defined.

(** * The FreeBSD collectors *)

(** C3 (as amended): the collector fails (returns -1) exactly when the
    sizing query, the allocation or the filling query fails; when all three
    succeed and the reported length holds no whole core, it returns success
    with the all-zero sample. *)
Theorem freebsd_get_cpu_times_failure (q : FreeBSD.cp_query) :
  (retcode (FreeBSD.get_cpu_times q) <> 0
   <-> FreeBSD.size_query q = None \/ FreeBSD.malloc_ok q = false
       \/ FreeBSD.fill_query q = None)
  /\ (forall len cp_times,
        FreeBSD.size_query q = Some len -> FreeBSD.malloc_ok q = true ->
        FreeBSD.fill_query q = Some cp_times ->
        FreeBSD.num_cpus_of len <= 0 ->
        FreeBSD.get_cpu_times q = Ok FreeBSD.no_ticks).
Proof.
  unfold FreeBSD.get_cpu_times. split.
  - destruct (FreeBSD.size_query q) as [len |]; cbn [retcode].
    + destruct (FreeBSD.malloc_ok q); cbn [negb retcode].
      * destruct (FreeBSD.fill_query q) as [cp |]; cbn [retcode].
        -- split; [intros H; contradiction H; reflexivity |].
           intros [H | [H | H]]; discriminate.
        -- split; [auto | discriminate].
      * split; [auto | discriminate].
    + split; [auto | discriminate].
  - intros len cp_times -> -> -> H. cbn [negb].
    destruct (FreeBSD.num_cpus_of len) as [| n | n]; try lia; reflexivity.
Qed.

Lemma freebsd_get_cpu_times_failure_witness :
  FreeBSD.get_cpu_times no_core_query = Ok FreeBSD.no_ticks.
Proof.
  apply (proj2 (freebsd_get_cpu_times_failure no_core_query) 0 []);
    try reflexivity.
Defined.

(** C3 as stated does not hold: a query that reports zero cores is answered
    with success (return code 0) and the all-zero sample. *)
Lemma freebsd_get_cpu_times_zero_cores :
  FreeBSD.num_cpus_of 0 = 0
  /\ retcode (FreeBSD.get_cpu_times no_core_query) = 0
  /\ stored (FreeBSD.get_cpu_times no_core_query) = Some FreeBSD.no_ticks.
Proof. repeat split. Qed.

(** The aggregation on a well-formed answer, for reference. *)
Example freebsd_two_cores :
  FreeBSD.get_cpu_times two_core_query
  = Ok {| user := 250; nice := 2; system := 71; idle := 980; intr := 16 |}.
Proof. reflexivity. Qed.

Lemma used_mem_of_clamped (total_mem free_pages page_size : Z) :
  in_u64 total_mem ->
  let used := FreeBSD.used_mem_of total_mem free_pages page_size in
  used = Z.max 0 (total_mem - FreeBSD.free_mem_of free_pages page_size)
  /\ 0 <= used <= total_mem.
Proof.
  intros T. unfold in_u64 in T. cbv zeta. unfold FreeBSD.used_mem_of.
  pose proof (u64_range (free_pages * page_size)) as F.
  fold (FreeBSD.free_mem_of free_pages page_size) in F.
  destruct (total_mem >? FreeBSD.free_mem_of free_pages page_size) eqn:E.
  - apply Z.gtb_lt in E. rewrite u64_small by lia. lia.
  - rewrite Z.gtb_ltb in E. apply Z.ltb_ge in E. lia.
Qed.

(** C8 (as amended): on every successful return of the FreeBSD memory
    path, the used amount is [max(0, total - free)] where [free] is the
    64-bit product [freePages * pageSize] (the mathematical product
    whenever that stays below [2^64]), and so never exceeds the total. *)
Theorem freebsd_memory_clamped (q : FreeBSD.mem_query) (u : usage) :
  FreeBSD.get_memory_usage q = Ok u ->
  exists total_mem free_pages,
    FreeBSD.physmem q = Some total_mem
    /\ FreeBSD.free_count q = Some free_pages
    /\ 0 <= FreeBSD.pagesize q
    /\ let used := FreeBSD.used_mem_of total_mem free_pages (FreeBSD.pagesize q) in
       used_gb u = gigabytes used
       /\ total_gb u = gigabytes total_mem
       /\ (in_u64 total_mem ->
           0 <= used <= total_mem
           /\ used = Z.max 0 (total_mem
                              - u64 (free_pages * FreeBSD.pagesize q))
           /\ (0 <= free_pages * FreeBSD.pagesize q < two64 ->
               used = Z.max 0 (total_mem - free_pages * FreeBSD.pagesize q))).
Proof.
  unfold FreeBSD.get_memory_usage.
  destruct (FreeBSD.physmem q) as [total_mem |]; [| discriminate].
  destruct (FreeBSD.pagesize q <? 0) eqn:P; [discriminate |].
  apply Z.ltb_ge in P.
  destruct (FreeBSD.free_count q) as [free_pages |]; [| discriminate].
  intros H. injection H as <-. exists total_mem, free_pages.
  repeat split; try assumption; cbn [used_gb total_gb];
    try (apply used_mem_of_clamped; assumption).
  intros Small.
  destruct (used_mem_of_clamped total_mem free_pages (FreeBSD.pagesize q)
              ltac:(assumption)) as [E _].
  rewrite E. unfold FreeBSD.free_mem_of. rewrite u64_small by exact Small.
  reflexivity.
Qed.

Lemma freebsd_memory_clamped_witness :
  exists u, FreeBSD.get_memory_usage surplus_mem_query = Ok u
    /\ used_gb u = gigabytes 0 /\ total_gb u = gigabytes 8589934592.
Proof.
  eexists. split; [reflexivity |].
  destruct (freebsd_memory_clamped surplus_mem_query _ eq_refl)
    as (t & f & Et & Ef & _ & Eu & Etot & _).
  injection Et as <-. injection Ef as <-.
  split; [exact Eu | exact Etot].
Defined.

(** C8 as stated does not hold for every free-page count: when the product
    [freePages * pageSize] reaches [2^64] it wraps, and the used amount is
    not [max(0, total - freePages * pageSize)]. *)
Lemma freebsd_memory_product_wraps :
  FreeBSD.used_mem_of 8589934592 4503599627370496 4096 = 8589934592
  /\ Z.max 0 (8589934592 - 4503599627370496 * 4096) = 0
  /\ exists u, FreeBSD.get_memory_usage wrapping_mem_query = Ok u
       /\ used_gb u = gigabytes 8589934592
       /\ percent_used u = d100.
Proof.
  split; [reflexivity |]. split; [reflexivity |].
  eexists. split; [reflexivity |]. split; vm_compute; reflexivity.
Qed.

(** * The interface enumerator *)

Lemma decimal_length (b : Byte.byte) : (String.length (decimal b) <= 3)%nat.
Proof. destruct b; vm_compute; lia. Qed.

Lemma length_append (s t : string) :
  String.length (s ++ t) = (String.length s + String.length t)%nat.
Proof.
  induction s as [| c s IH]; [reflexivity |].
  cbn [String.append String.length]. rewrite IH. reflexivity.
Qed.

(** A buffer of [INET_ADDRSTRLEN] bytes always holds an IPv4 address. *)
Lemma inet_ntop4_total (a : in_addr) :
  inet_ntop4 AF_INET a INET_ADDRSTRLEN = Some (dotted a).
Proof.
  unfold inet_ntop4. rewrite Z.eqb_refl.
  assert (L : (String.length (dotted a) + 1 <= INET_ADDRSTRLEN)%nat).
  { unfold dotted, INET_ADDRSTRLEN. rewrite !length_append.
    pose proof (decimal_length (b0 a)). pose proof (decimal_length (b1 a)).
    pose proof (decimal_length (b2 a)). pose proof (decimal_length (b3 a)).
    cbn [String.length]. lia. }
  apply Nat.leb_le in L. rewrite L. reflexivity.
Qed.

Lemma record_of_inet_ntop4 (e : ifaddrs) :
  reportable e = true -> record_of inet_ntop4 e = Some (dotted_record e).
Proof.
  unfold reportable, record_of, dotted_record.
  destruct (ifa_addr e) as [addr |]; [| discriminate].
  intros _. rewrite !inet_ntop4_total. reflexivity.
Qed.

Lemma walk_interfaces_flat_map
  (inet_ntop : Z -> in_addr -> nat -> option string) (l : list ifaddrs) :
  walk_interfaces inet_ntop l
  = flat_map (fun e => if reportable e
                       then match record_of inet_ntop e with
                            | Some r => [r]
                            | None => []
                            end
                       else []) l.
Proof.
  induction l as [| e next IH]; [reflexivity |].
  cbn [walk_interfaces flat_map]. unfold reportable at 1, record_of at 1.
  destruct (ifa_addr e) as [addr |]; [| exact IH].
  destruct (sa_family addr =? AF_INET); cbn [negb andb]; [| exact IH].
  destruct (Z.land (ifa_flags e) IFF_LOOPBACK =? 0); cbn [negb]; [| exact IH].
  destruct (inet_ntop AF_INET (sin_addr addr) INET_ADDRSTRLEN) as [ip |];
    [| exact IH].
  destruct (inet_ntop AF_INET (sin_addr (ifa_netmask e)) INET_ADDRSTRLEN)
    as [netmask |]; [| exact IH].
  cbn [app]. rewrite IH. reflexivity.
Qed.

(** C9: the enumerator emits, in list order, one record for each entry that
    has an address, whose family is IPv4 and whose loopback flag is clear,
    provided both conversions succeed (with [inet_ntop] and a 16-byte
    buffer they always do); on the synthetic list of a loopback IPv4 entry,
    a non-loopback IPv4 entry and a non-loopback IPv6 entry it prints
    exactly the record of the second; and an entry whose conversion fails
    is passed over without affecting the entries around it. *)
Theorem network_filter :
  (forall inet_ntop l,
      walk_interfaces inet_ntop l
      = flat_map (fun e => if reportable e
                           then match record_of inet_ntop e with
                                | Some r => [r]
                                | None => []
                                end
                           else []) l)
  /\ (forall l,
        walk_interfaces inet_ntop4 l = map dotted_record (filter reportable l))
  /\ print_network_interfaces inet_ntop4 (Some synthetic_interfaces)
     = [Stdout (Text "Network interfaces:");
        Stdout (Interface "eth0" "192.168.1.10" "255.255.255.0")]
  /\ (forall inet_ntop l1 e l2,
        reportable e = true -> record_of inet_ntop e = None ->
        walk_interfaces inet_ntop (l1 ++ e :: l2)
        = (walk_interfaces inet_ntop l1 ++ walk_interfaces inet_ntop l2)%list).
Proof.
  split; [exact walk_interfaces_flat_map |]. split; [| split].
  - intros l. rewrite walk_interfaces_flat_map.
    induction l as [| e next IH]; [reflexivity |].
    cbn [flat_map filter]. rewrite IH.
    destruct (reportable e) eqn:R; [| reflexivity].
    rewrite (record_of_inet_ntop4 e R). reflexivity.
  - reflexivity.
  - intros inet_ntop l1 e l2 R N. rewrite !walk_interfaces_flat_map.
    rewrite flat_map_app. cbn [flat_map]. rewrite R, N. reflexivity.
Qed.

Lemma network_filter_witness :
  reportable eth0_v4 = true
  /\ record_of inet_ntop_short eth0_v4 = None
  /\ walk_interfaces inet_ntop_short ([docker0_v4] ++ eth0_v4 :: [lo_v4])
     = (walk_interfaces inet_ntop_short [docker0_v4]
        ++ walk_interfaces inet_ntop_short [lo_v4])%list
  /\ walk_interfaces inet_ntop_short [docker0_v4]
     = [Stdout (Interface "docker0" "10.0.0.1" "255.0.0.0")].
Proof.
  split; [reflexivity |]. split; [reflexivity |].
  split; [| reflexivity].
  apply (proj2 (proj2 (proj2 network_filter))); reflexivity.
Defined.

(** * The report driver *)

Section Driver.

Context {K : Type} `{B : Build K}.

Lemma main_fails_first (h : host K) (d : diagnostic) :
  get_cpu_times (before_sleep h) = Fail d ->
  main h = (EXIT_FAILURE,
            (banner ++ [Stderr d; Stderr (Eprintf "Failed to get initial CPU times")])%list).
Proof. intros E. unfold main. rewrite E. reflexivity. Qed.

Lemma main_fails_second (h : host K) (prev : cpu_times_t) (d : diagnostic) :
  get_cpu_times (before_sleep h) = Ok prev ->
  get_cpu_times (after_sleep h) = Fail d ->
  main h = (EXIT_FAILURE,
            (banner ++ [Stderr d; Stderr (Eprintf "Failed to get CPU times")])%list).
Proof. intros E1 E2. unfold main. rewrite E1, E2. reflexivity. Qed.

Lemma main_reports (h : host K) (prev curr : cpu_times_t) :
  get_cpu_times (before_sleep h) = Ok prev ->
  get_cpu_times (after_sleep h) = Ok curr ->
  main h = (EXIT_SUCCESS,
            (banner ++ [Stdout (CpuUsage (calc_cpu_usage build_platform prev curr))]
             ++ memory_section (get_memory_usage (after_sleep h))
             ++ disk_section (get_disk_usage (root_statvfs h))
             ++ print_network_interfaces inet_ntop4 (getifaddrs h))%list).
Proof. intros E1 E2. unfold main. rewrite E1, E2. reflexivity. Qed.


End Driver.




(** * More on the estimator *)

(** The quotient of two canonical doubles whose exponents are at most 130
    apart is a canonical double. *)
Lemma ddiv_canonical (x y : double) (ma ea mt et : Z) :
  canonical x ma ea -> canonical y mt et ->
  -130 <= ea - et <= 130 ->
  exists mz ez, canonical (ddiv x y) mz ez
    /\ ea - et - 53 <= ez <= ea - et - 51.
Proof.
  intros [-> Ha] [-> Ht] L.
  assert (Pa : 0 < ma) by (unfold two52 in *; lia).
  assert (Pt : 0 < mt) by (unfold two52 in *; lia).
  unfold ddiv, SFdiv, SFdiv_core_binary. cbn [xorb Zdigits2].
  rewrite !canonical_digits by assumption.
  unfold fexp, emin. rewrite Z.max_l by lia.
  rewrite Z.min_l by lia.
  replace (ea - et - (53 + ea - (53 + et) - 53)) with 53 by lia.
  rewrite Z.shiftl_mul_pow2 by lia. rewrite !Z2Pos.id by lia.
  change (2 ^ 53) with two53.
  pose proof (Z_div_mod (ma * two53) mt ltac:(lia)) as DM.
  destruct (Z.div_eucl (ma * two53) mt) as [q r]. destruct DM as [DM Hr].
  set (e' := 53 + ea - (53 + et) - 53).
  assert (Hq : two52 <= q < 2 * two53) by (unfold two52, two53 in *; nia).
  destruct q as [| pq | pq]; try (unfold two52 in Hq; lia).
  set (n := if Zpos pq <? two53 then 0 else 1).
  assert (Hn : 0 <= n <= 1) by (subst n; destruct (_ <? _); lia).
  assert (Hd : Zpos (digits2_pos pq) = 53 + n).
  { apply digits2_pos_unique. subst n.
    destruct (Zpos pq <? two53) eqn:E;
      [apply Z.ltb_lt in E | apply Z.ltb_ge in E].
    - change (2 ^ (53 + 0 - 1)) with two52. change (2 ^ (53 + 0)) with two53. lia.
    - change (2 ^ (53 + 1 - 1)) with two53.
      change (2 ^ (53 + 1)) with (2 * two53). lia. }
  clearbody n.
  rewrite (binary_round_aux_normal pq e' n) by (subst e'; lia).
  set (R := rounded (Zpos pq) (Z.to_nat n) (new_location mt r)).
  assert (HR : two52 <= R <= two53).
  { pose proof (truncated_range pq n Hd ltac:(lia)) as T.
    pose proof (rounded_bounds (Zpos pq) (Z.to_nat n) (new_location mt r)
                  ltac:(lia)) as F.
    rewrite Z2Nat.id in F by lia. fold R in F. lia. }
  destruct (normal_canonical R (e' + n) HR) as (mz & ez & C & _ & E & _).
  exists mz, ez. split; [exact C |]. subst e'. lia.
Qed.

(** A canonical double of moderate exponent, times [100.0], is canonical. *)
Lemma dmul_hundred_canonical (z : double) (mz ez : Z) :
  canonical z mz ez -> -300 <= ez <= 300 ->
  exists mr er, canonical (dmul z d100) mr er /\ ez + 6 <= er <= ez + 8.
Proof.
  intros [-> Hz] L.
  assert (Pz : 0 < mz) by (unfold two52 in *; lia).
  unfold dmul, d100, SFmul. cbn [xorb].
  set (P := (Z.to_pos mz * 7036874417766400)%positive).
  assert (EP : Zpos P = mz * m100)
    by (subst P; rewrite Pos2Z.inj_mul, Z2Pos.id by lia; reflexivity).
  set (n := if Zpos P <? two105 then 52 else 53).
  assert (Hc : (n = 52 /\ Zpos P < two105) \/ (n = 53 /\ two105 <= Zpos P))
    by (subst n; destruct (Zpos P <? two105) eqn:E;
        [apply Z.ltb_lt in E | apply Z.ltb_ge in E]; lia).
  clearbody n.
  assert (Hd : Zpos (digits2_pos P) = 53 + n).
  { apply digits2_pos_unique. rewrite EP in *.
    destruct Hc as [[-> Q] | [-> Q]].
    - change (2 ^ (53 + 52 - 1)) with 20282409603651670423947251286016.
      change (2 ^ (53 + 52)) with two105.
      unfold two52, two53, two105, m100 in *; lia.
    - change (2 ^ (53 + 53 - 1)) with two105.
      change (2 ^ (53 + 53)) with 81129638414606681695789005144064.
      unfold two52, two53, two105, m100 in *; lia. }
  assert (Hn : 52 <= n <= 53) by lia.
  rewrite (binary_round_aux_normal P (ez + -46) n) by lia.
  set (R := rounded (Zpos P) (Z.to_nat n) loc_Exact).
  assert (HR : two52 <= R <= two53).
  { pose proof (truncated_range P n Hd ltac:(lia)) as T.
    pose proof (rounded_bounds (Zpos P) (Z.to_nat n) loc_Exact ltac:(lia)) as F.
    rewrite Z2Nat.id in F by lia. fold R in F. lia. }
  destruct (normal_canonical R (ez + -46 + n) HR) as (mr & er & C & _ & E & _).
  exists mr, er. split; [exact C | lia].
Qed.

Lemma zero_percentage (t : Z) :
  0 < t < two64 -> dmul (ddiv (double_of_Z 0) (double_of_Z t)) d100 = d0.
Proof.
  intros Ht. destruct (double_of_Z_finite t Ht) as (m & e & ->). reflexivity.
Qed.

(** The percentage formula on any two 64-bit values, the second non-zero,
    gives a zero or a positive finite double. *)
Lemma percentage_finite (a t : Z) :
  0 <= a < two64 -> 0 < t < two64 ->
  finite_nonneg (dmul (ddiv (double_of_Z a) (double_of_Z t)) d100) = true.
Proof.
  intros Ha Ht.
  destruct a as [| pa | pa]; try lia.
  - rewrite zero_percentage by exact Ht. reflexivity.
  - destruct t as [| pt | pt]; try lia.
    destruct (double_of_Z_canonical pa ltac:(lia)) as (ma & ea & Ca & Ea & _).
    destruct (double_of_Z_canonical pt ltac:(lia)) as (mt & et & Ct & Et & _).
    destruct (ddiv_canonical _ _ _ _ _ _ Ca Ct ltac:(lia)) as (mz & ez & Cz & Ez).
    destruct (dmul_hundred_canonical _ _ _ Cz ltac:(lia)) as (mr & er & [-> _] & _).
    reflexivity.
Qed.

(** X1: when the active delta is zero (only idle time, or nothing, was
    added) [calc_cpu_usage] returns exactly [0.0]. *)
Theorem calc_cpu_usage_no_activity (p : platform) (prev curr : cpu_times_t) :
  active_delta p prev curr = 0 -> calc_cpu_usage p prev curr = d0.
Proof.
  intros H. rewrite calc_cpu_usage_unfold, H.
  destruct (total_delta p prev curr =? 0) eqn:E; [reflexivity |].
  apply Z.eqb_neq in E. apply zero_percentage.
  pose proof (u64_range (total_of p curr - total_of p prev)) as R.
  fold (total_delta p prev curr) in R. lia.
Qed.

Lemma calc_cpu_usage_no_activity_witness :
  calc_cpu_usage FreeBSD
    {| user := 100; nice := 2; system := 30; idle := 500; intr := 7 |}
    {| user := 100; nice := 2; system := 30; idle := 600; intr := 7 |}
  = d0.
Proof. apply calc_cpu_usage_no_activity. reflexivity. Defined.

(** X2: whatever the two samples hold, wrapped deltas included,
    [calc_cpu_usage] returns a zero or a positive finite double: never a
    NaN, an infinity or a negative value. *)
Theorem calc_cpu_usage_finite (p : platform) (prev curr : cpu_times_t) :
  finite_nonneg (calc_cpu_usage p prev curr) = true.
Proof.
  rewrite calc_cpu_usage_unfold.
  destruct (total_delta p prev curr =? 0) eqn:E; [reflexivity |].
  apply Z.eqb_neq in E.
  pose proof (u64_range (total_of p curr - total_of p prev)) as R.
  fold (total_delta p prev curr) in R.
  apply percentage_finite; [apply u64_range | lia].
Qed.
(** * More on the FreeBSD CPU collector *)

Lemma u64_add_l (a b : Z) : u64 (u64 a + b) = u64 (a + b).
Proof. unfold u64. apply Zplus_mod_idemp_l. Qed.

Lemma u64_add_r (a b : Z) : u64 (a + u64 b) = u64 (a + b).
Proof. unfold u64. apply Zplus_mod_idemp_r. Qed.

Lemma cell_entry (block : nat -> Z) (cp_times : list Z) (i k : nat) :
  (5 * i + k < List.length cp_times)%nat ->
  FreeBSD.cell block cp_times (Z.of_nat i * FreeBSD.CPUSTATES + Z.of_nat k)
  = u64 (entry cp_times i k).
Proof.
  intros H. unfold FreeBSD.cell, entry, FreeBSD.CPUSTATES.
  replace (Z.to_nat (Z.of_nat i * 5 + Z.of_nat k)) with (5 * i + k)%nat by lia.
  f_equal. apply nth_indep. exact H.
Qed.

Lemma column_S (cp_times : list Z) (from n k : nat) :
  column cp_times from (S n) k
  = entry cp_times from k + column cp_times (S from) n k.
Proof. reflexivity. Qed.

Lemma sum_cores_S (n : nat) (i : Z) (block : nat -> Z) (cp_times : list Z)
  (acc : cpu_times_t) :
  FreeBSD.sum_cores (S n) i block cp_times acc
  = FreeBSD.sum_cores n (i + 1) block cp_times
      {| user := u64 (user acc + FreeBSD.cell block cp_times (i * FreeBSD.CPUSTATES + 0));
         nice := u64 (nice acc + FreeBSD.cell block cp_times (i * FreeBSD.CPUSTATES + 1));
         system := u64 (system acc + FreeBSD.cell block cp_times (i * FreeBSD.CPUSTATES + 2));
         intr := u64 (intr acc + FreeBSD.cell block cp_times (i * FreeBSD.CPUSTATES + 3));
         idle := u64 (idle acc + FreeBSD.cell block cp_times (i * FreeBSD.CPUSTATES + 4)) |}.
Proof. reflexivity. Qed.

(** When the kernel wrote every entry of the cores summed, the loop adds to
    each counter the matching column, modulo [2^64], and what the buffer
    held before plays no part. *)
Lemma sum_cores_columns (block : nat -> Z) (cp_times : list Z) (n from : nat)
  (acc : cpu_times_t) :
  valid_sample FreeBSD acc ->
  (5 * (from + n) <= List.length cp_times)%nat ->
  FreeBSD.sum_cores n (Z.of_nat from) block cp_times acc
  = {| user := u64 (user acc + column cp_times from n 0);
       nice := u64 (nice acc + column cp_times from n 1);
       system := u64 (system acc + column cp_times from n 2);
       intr := u64 (intr acc + column cp_times from n 3);
       idle := u64 (idle acc + column cp_times from n 4) |}.
Proof.
  revert from acc. induction n as [| n IH]; intros from acc V L.
  - cbn [FreeBSD.sum_cores]. unfold column. cbn [seq map fold_right].
    rewrite !Z.add_0_r. invert_fields.
    rewrite !u64_small by assumption. destruct acc; reflexivity.
  - rewrite sum_cores_S.
    replace (Z.of_nat from + 1) with (Z.of_nat (S from)) by lia.
    rewrite IH by (first [lia | repeat constructor; apply u64_range]).
    cbn [user nice system intr idle].
    change 0 with (Z.of_nat 0) at 1. change 1 with (Z.of_nat 1) at 1.
    change 2 with (Z.of_nat 2) at 1. change 3 with (Z.of_nat 3) at 1.
    change 4 with (Z.of_nat 4) at 1.
    rewrite !cell_entry by lia.
    rewrite !column_S, !u64_add_r, !u64_add_l.
    rewrite !Z.add_assoc. reflexivity.
Qed.

(** Whatever the buffer holds, the counters stay within the unsigned 64-bit
    range through the loop. *)
Lemma sum_cores_valid (block : nat -> Z) (cp_times : list Z) (n : nat) (i : Z)
  (acc : cpu_times_t) :
  valid_sample FreeBSD acc ->
  valid_sample FreeBSD (FreeBSD.sum_cores n i block cp_times acc).
Proof.
  revert i acc. induction n as [| n IH]; intros i acc V.
  - exact V.
  - rewrite sum_cores_S. apply IH. repeat constructor; apply u64_range.
Qed.

(** X3: when the queries and the allocation succeed and the kernel wrote
    every entry of the cores summed (the whole groups of five entries that
    the reported length holds), the FreeBSD collector succeeds and each
    counter it stores is the sum over those cores of the matching column of
    the kernel array, taken modulo [2^64]. *)
Theorem freebsd_get_cpu_times_columns
  (q : FreeBSD.cp_query) (len : Z) (cp_times : list Z) :
  FreeBSD.size_query q = Some len -> FreeBSD.malloc_ok q = true ->
  FreeBSD.fill_query q = Some cp_times ->
  (5 * Z.to_nat (FreeBSD.num_cpus_of len) <= List.length cp_times)%nat ->
  let n := Z.to_nat (FreeBSD.num_cpus_of len) in
  FreeBSD.get_cpu_times q
  = Ok {| user := u64 (column cp_times 0 n 0);
          nice := u64 (column cp_times 0 n 1);
          system := u64 (column cp_times 0 n 2);
          intr := u64 (column cp_times 0 n 3);
          idle := u64 (column cp_times 0 n 4) |}.
Proof.
  intros Es Em Ef L n. unfold FreeBSD.get_cpu_times.
  rewrite Es, Em, Ef. cbn [negb]. f_equal. fold n.
  change 0 with (Z.of_nat 0) at 1.
  rewrite sum_cores_columns; [reflexivity | | exact L].
  repeat constructor; unfold two64; cbn; lia.
Qed.

Lemma freebsd_get_cpu_times_columns_witness :
  FreeBSD.get_cpu_times four_core_query
  = Ok {| user := 250; nice := 3; system := 72; intr := 17; idle := 981 |}.
Proof.
  apply (freebsd_get_cpu_times_columns four_core_query 160
           [100; 2; 30; 7; 500;   150; 0; 41; 9; 480;
            -1; 0; 0; 0; 0;       1; 1; 1; 1; 1]);
    reflexivity.
Defined.

(** X4: every sample the FreeBSD collector stores has its five counters
    within the 64-bit unsigned range. *)
Theorem freebsd_get_cpu_times_valid (q : FreeBSD.cp_query) (t : cpu_times_t) :
  FreeBSD.get_cpu_times q = Ok t -> valid_sample FreeBSD t.
Proof.
  unfold FreeBSD.get_cpu_times.
  destruct (FreeBSD.size_query q) as [len |]; [| discriminate].
  destruct (FreeBSD.malloc_ok q); [| discriminate]. cbn [negb].
  destruct (FreeBSD.fill_query q) as [cp_times |]; [| discriminate].
  intros H. injection H as <-.
  apply sum_cores_valid.
  repeat constructor; unfold two64; cbn; lia.
Qed.

Lemma freebsd_get_cpu_times_valid_witness :
  valid_sample FreeBSD
    {| user := 250; nice := 3; system := 72; intr := 17; idle := 981 |}.
Proof.
  apply (freebsd_get_cpu_times_valid four_core_query). reflexivity.
Defined.



(** * More on the FreeBSD memory collector *)

(** X6: when the three queries succeed and the total is non-zero, the
    FreeBSD memory collector succeeds with a percentage in [[0, 100]],
    whatever the free-page count and page size are. *)
Theorem freebsd_memory_percent_in_range
  (q : FreeBSD.mem_query) (total_mem free_pages : Z) :
  FreeBSD.physmem q = Some total_mem -> 0 <= FreeBSD.pagesize q ->
  FreeBSD.free_count q = Some free_pages ->
  0 < total_mem < two64 ->
  exists u, FreeBSD.get_memory_usage q = Ok u
    /\ in_percent_range (percent_used u) = true.
Proof.
  intros Ep Hp Ef Ht. unfold FreeBSD.get_memory_usage. rewrite Ep, Ef.
  replace (FreeBSD.pagesize q <? 0) with false by (symmetry; apply Z.ltb_ge; lia).
  eexists. split; [reflexivity |]. cbn [percent_used].
  destruct (used_mem_of_clamped total_mem free_pages (FreeBSD.pagesize q)
              ltac:(unfold in_u64; lia)) as [_ U].
  destruct (percentage_in_range _ total_mem U Ht) as [L H].
  unfold in_percent_range. rewrite L, H. reflexivity.
Qed.

Lemma freebsd_memory_percent_in_range_witness :
  exists u, FreeBSD.get_memory_usage typical_mem_query = Ok u
    /\ in_percent_range (percent_used u) = true.
Proof.
  apply (freebsd_memory_percent_in_range typical_mem_query 8589934592 1500000);
    try reflexivity; unfold two64; cbn; lia.
Defined.

(** X7: a total of zero is not guarded on the FreeBSD memory path: the
    collector still reports success, and the percentage is the NaN that
    [0.0 / 0.0] gives. *)
Theorem freebsd_memory_zero_total (q : FreeBSD.mem_query) (free_pages : Z) :
  FreeBSD.physmem q = Some 0 -> 0 <= FreeBSD.pagesize q ->
  FreeBSD.free_count q = Some free_pages ->
  exists u, FreeBSD.get_memory_usage q = Ok u
    /\ is_nan (percent_used u) = true
    /\ used_gb u = d0 /\ total_gb u = d0.
Proof.
  intros Ep Hp Ef. unfold FreeBSD.get_memory_usage. rewrite Ep, Ef.
  replace (FreeBSD.pagesize q <? 0) with false by (symmetry; apply Z.ltb_ge; lia).
  eexists. split; [reflexivity |]. cbn [percent_used used_gb total_gb].
  assert (U : FreeBSD.used_mem_of 0 free_pages (FreeBSD.pagesize q) = 0).
  { unfold FreeBSD.used_mem_of.
    pose proof (u64_range (free_pages * FreeBSD.pagesize q)) as R.
    fold (FreeBSD.free_mem_of free_pages (FreeBSD.pagesize q)) in R.
    destruct (0 >? FreeBSD.free_mem_of free_pages (FreeBSD.pagesize q)) eqn:E;
      [| reflexivity].
    apply Z.gtb_lt in E. lia. }
  rewrite U. repeat split.
Qed.

Lemma freebsd_memory_zero_total_witness :
  exists u, FreeBSD.get_memory_usage zero_physmem_query = Ok u
    /\ is_nan (percent_used u) = true
    /\ used_gb u = d0 /\ total_gb u = d0.
Proof.
  apply (freebsd_memory_zero_total zero_physmem_query 1000);
    try reflexivity. cbn. lia.
Defined.

(** * The disk collector *)

(** X8: for a file system whose free-block count does not exceed its block
    count and whose size in bytes fits 64 bits, the disk collector reports
    the total [f_blocks * f_frsize], the used amount
    [(f_blocks - f_bfree) * f_frsize], and a percentage in [[0, 100]]. *)
Theorem get_disk_usage_in_range (vfs : statvfs_t) :
  0 <= f_bfree vfs <= f_blocks vfs -> 0 <= f_frsize vfs ->
  f_blocks vfs * f_frsize vfs < two64 ->
  exists u, get_disk_usage (Some vfs) = Ok u
    /\ total_gb u = gigabytes (f_blocks vfs * f_frsize vfs)
    /\ used_gb u = gigabytes ((f_blocks vfs - f_bfree vfs) * f_frsize vfs)
    /\ in_percent_range (percent_used u) = true.
Proof.
  intros Hb Hf Ht. unfold get_disk_usage.
  assert (Hfree : 0 <= f_bfree vfs * f_frsize vfs <= f_blocks vfs * f_frsize vfs)
    by nia.
  rewrite (u64_small (f_blocks vfs * f_frsize vfs)) by nia.
  rewrite (u64_small (f_bfree vfs * f_frsize vfs)) by lia.
  rewrite (u64_small (f_blocks vfs * f_frsize vfs - f_bfree vfs * f_frsize vfs))
    by lia.
  eexists. split; [reflexivity |]. cbn [total_gb used_gb percent_used].
  split; [reflexivity |]. split; [f_equal; ring |].
  destruct (f_blocks vfs * f_frsize vfs =? 0) eqn:E; [reflexivity |].
  apply Z.eqb_neq in E.
  destruct (percentage_in_range
              (f_blocks vfs * f_frsize vfs - f_bfree vfs * f_frsize vfs)
              (f_blocks vfs * f_frsize vfs) ltac:(lia) ltac:(lia)) as [L H].
  unfold in_percent_range. rewrite L, H. reflexivity.
Qed.

Lemma get_disk_usage_in_range_witness :
  exists u, get_disk_usage (Some root_fs) = Ok u
    /\ total_gb u = gigabytes (263940717 * 4096)
    /\ used_gb u = gigabytes ((263940717 - 238402893) * 4096)
    /\ in_percent_range (percent_used u) = true.
Proof.
  apply (get_disk_usage_in_range root_fs); unfold two64; cbn; lia.
Defined.

(** X9: whatever [statvfs] fills in, wrapped products included, the disk
    collector succeeds and its percentage is a zero or a positive finite
    double, never a NaN: a total of zero is guarded and gives exactly
    [0.0]. *)
Theorem get_disk_usage_never_nan (vfs : statvfs_t) :
  exists u, get_disk_usage (Some vfs) = Ok u
    /\ finite_nonneg (percent_used u) = true
    /\ (u64 (f_blocks vfs * f_frsize vfs) = 0 -> percent_used u = d0).
Proof.
  unfold get_disk_usage. eexists. split; [reflexivity |].
  cbn [percent_used].
  pose proof (u64_range (f_blocks vfs * f_frsize vfs)) as R.
  destruct (u64 (f_blocks vfs * f_frsize vfs) =? 0) eqn:E.
  - split; reflexivity.
  - apply Z.eqb_neq in E. split; [| intros H; contradiction].
    apply percentage_finite; [apply u64_range | lia].
Qed.

Lemma get_disk_usage_never_nan_witness :
  exists u, get_disk_usage (Some empty_fs) = Ok u /\ percent_used u = d0.
Proof.
  destruct (get_disk_usage_never_nan empty_fs) as (u & E & _ & Z0).
  exists u. split; [exact E |]. apply Z0. reflexivity.
Defined.

(** * More on the Linux memory collector *)

(** No line gives a value for both keys. *)
Lemma scan_key_exclusive (l : string) (v : Z) :
  scan_key "MemTotal: %lu kB" l = Some v ->
  scan_key "MemAvailable: %lu kB" l = None.
Proof.
  unfold scan_key, sscanf.
  change (directives_of "MemTotal: %lu kB")
    with (Lit "M" :: Lit "e" :: Lit "m" :: Lit "T"
          :: directives_of "otal: %lu kB").
  change (directives_of "MemAvailable: %lu kB")
    with (Lit "M" :: Lit "e" :: Lit "m" :: Lit "A"
          :: directives_of "vailable: %lu kB").
  generalize (directives_of "otal: %lu kB") as dt.
  generalize (directives_of "vailable: %lu kB") as da. intros da dt.
  destruct l as [| c1 [| c2 [| c3 [| c4 r]]]]; cbn [run_directives stop_count];
    repeat (match goal with
            | |- context [Ascii.eqb ?a ?b] => destruct (Ascii.eqb a b) eqn:?
            end; cbn [run_directives stop_count]);
    try discriminate; try reflexivity.
  repeat match goal with
         | H : Ascii.eqb _ _ = true |- _ => apply Ascii.eqb_eq in H
         end.
  congruence.
Qed.

Lemma fold_meminfo_available_last (lines : list string) (acc : Z * Z) :
  snd (fold_left meminfo_step lines acc)
  = match last_value "MemAvailable: %lu kB" lines with
    | Some v => v
    | None => snd acc
    end.
Proof.
  revert acc. induction lines as [| l ls IH]; intros acc; [reflexivity |].
  rewrite fold_left_cons, last_value_cons, IH.
  destruct (last_value "MemAvailable: %lu kB" ls) as [v |]; [reflexivity |].
  unfold meminfo_step.
  destruct (scan_key "MemTotal: %lu kB" l) as [v |] eqn:T.
  - rewrite (scan_key_exclusive l v T). reflexivity.
  - destruct (scan_key "MemAvailable: %lu kB" l); reflexivity.
Qed.

(** What the loop leaves in its two variables. *)
Lemma meminfo_loop_last_values (content : string) :
  Linux.meminfo_loop (String.length content) content 0 0
  = (value_or_zero (last_value "MemTotal: %lu kB" (lines_of content)),
     value_or_zero (last_value "MemAvailable: %lu kB" (lines_of content))).
Proof.
  rewrite meminfo_loop_fold. fold (lines_of content).
  rewrite (surjective_pairing (fold_left _ _ _)).
  rewrite fold_meminfo_total, fold_meminfo_available_last. reflexivity.
Qed.

(** X10: the Linux memory collector is a function of the value of the last
    MemTotal line and of the last MemAvailable line, wherever they stand in
    the file (a missing key counts as 0): it fails exactly when the total
    so found is 0, and otherwise reports the total, the 64-bit difference
    total - available, and their ratio. *)
Theorem linux_memory_by_last_values (content : string) :
  let mem_total :=
    value_or_zero (last_value "MemTotal: %lu kB" (lines_of content)) in
  let mem_available :=
    value_or_zero (last_value "MemAvailable: %lu kB" (lines_of content)) in
  Linux.get_memory_usage (Some content)
  = if mem_total =? 0 then Fail (Eprintf "Failed to get MemTotal")
    else Ok {| used_gb := kb_to_gb (u64 (mem_total - mem_available));
               total_gb := kb_to_gb mem_total;
               percent_used :=
                 dmul (ddiv (double_of_Z (u64 (mem_total - mem_available)))
                            (double_of_Z mem_total)) d100 |}.
Proof.
  cbv zeta. unfold Linux.get_memory_usage.
  rewrite meminfo_loop_last_values. reflexivity.
Qed.

(** X11: when the available amount found does not exceed the non-zero
    total found, the Linux memory collector succeeds, the used amount is
    their plain difference and the percentage lies in [[0, 100]]. *)
Theorem linux_memory_percent_in_range (content : string) (t a : Z) :
  last_value "MemTotal: %lu kB" (lines_of content) = Some t ->
  last_value "MemAvailable: %lu kB" (lines_of content) = Some a ->
  t <> 0 -> a <= t ->
  exists u, Linux.get_memory_usage (Some content) = Ok u
    /\ used_gb u = kb_to_gb (t - a) /\ total_gb u = kb_to_gb t
    /\ in_percent_range (percent_used u) = true.
Proof.
  intros Et Ea Nz Le.
  pose proof (last_value_range _ _ _ Et) as Rt.
  pose proof (last_value_range _ _ _ Ea) as Ra. unfold in_u64 in Rt, Ra.
  unfold Linux.get_memory_usage.
  rewrite meminfo_loop_last_values, Et, Ea. cbn [value_or_zero].
  destruct (t =? 0) eqn:E; [apply Z.eqb_eq in E; contradiction |].
  rewrite u64_small by lia.
  eexists. split; [reflexivity |]. cbn [used_gb total_gb percent_used].
  split; [reflexivity |]. split; [reflexivity |].
  destruct (percentage_in_range (t - a) t ltac:(lia) ltac:(lia)) as [L U].
  unfold in_percent_range. rewrite L, U. reflexivity.
Qed.

Lemma linux_memory_percent_in_range_witness :
  exists u, Linux.get_memory_usage (Some meminfo_shuffled) = Ok u
    /\ used_gb u = kb_to_gb (4000000 - 1000000) /\ total_gb u = kb_to_gb 4000000
    /\ in_percent_range (percent_used u) = true.
Proof.
  apply (linux_memory_percent_in_range meminfo_shuffled 4000000 1000000).
  - vm_compute. reflexivity.
  - vm_compute. reflexivity.
  - discriminate.
  - lia.
Defined.

(** * More on the Linux CPU collector *)

Lemma assigned_range (vals : list Z) (i : nat) :
  Forall in_u64 vals -> in_u64 (assigned vals i).
Proof.
  intros H. unfold assigned. revert i.
  induction H as [| v vs Hv _ IH]; intros i.
  - destruct i; unfold in_u64, two64; cbn; lia.
  - destruct i; [exact Hv | apply IH].
Qed.

(** X12: every sample the Linux collector stores has its four counters
    within the 64-bit unsigned range (out-of-range text saturates, a minus
    sign wraps). *)
Theorem linux_get_cpu_times_valid (proc_stat : option string) (t : cpu_times_t) :
  Linux.get_cpu_times proc_stat = Ok t -> valid_sample Linux t /\ intr t = 0.
Proof.
  unfold Linux.get_cpu_times.
  destruct proc_stat as [content |]; [| discriminate].
  destruct (fgets 256 content) as [[buf rest] |]; [| discriminate].
  unfold sscanf.
  pose proof (run_directives_range
                (directives_of "cpu  %llu %llu %llu %llu") buf []
                (Forall_nil _)) as R.
  destruct (run_directives (directives_of "cpu  %llu %llu %llu %llu") buf [])
    as [ret vals].
  cbn [snd] in R. destruct (ret <? 4); [discriminate |].
  intros H. injection H as <-. split; [| reflexivity].
  repeat constructor; cbn [user nice system idle]; apply assigned_range; exact R.
Qed.

Lemma linux_get_cpu_times_valid_witness :
  valid_sample Linux (sample 4705 150 1120 16250)
  /\ intr (sample 4705 150 1120 16250) = 0.
Proof.
  apply (linux_get_cpu_times_valid (Some stat_complete)). reflexivity.
Defined.

(** Reading a first line that fits the buffer. *)
Lemma fgets_chars_first_line (room : nat) (line rest : string) :
  has_newline line = false -> (String.length line < room)%nat ->
  fgets_chars room (line ++ String newline rest)
  = (line ++ String newline "", rest).
Proof.
  revert room. induction line as [| c l IH]; intros room N L.
  - destruct room as [| room]; [cbn in L; lia |].
    cbn [String.append fgets_chars]. rewrite Ascii.eqb_refl. reflexivity.
  - destruct room as [| room]; [cbn in L; lia |].
    cbn [has_newline] in N. apply orb_false_iff in N. destruct N as [Nc Nl].
    cbn [String.append fgets_chars]. rewrite Nc.
    rewrite IH by (cbn [String.length] in L; auto; lia). reflexivity.
Qed.

Lemma fgets_first_line (line rest : string) :
  has_newline line = false -> (String.length line < 255)%nat ->
  fgets 256 (line ++ String newline rest)
  = Some (line ++ String newline "", rest).
Proof.
  intros N L.
  assert (E : fgets 256 (line ++ String newline rest)
              = Some (fgets_chars (256 - 1) (line ++ String newline rest)))
    by (destruct line; reflexivity).
  rewrite E. f_equal. apply fgets_chars_first_line; [exact N | lia].
Qed.

(** X13: only the first line of /proc/stat is looked at: whatever follows
    its newline does not change the result. *)
Theorem linux_get_cpu_times_first_line (line rest : string) :
  has_newline line = false -> (String.length line < 255)%nat ->
  Linux.get_cpu_times (Some (line ++ String newline rest))
  = Linux.get_cpu_times (Some (line ++ String newline "")).
Proof.
  intros N L. unfold Linux.get_cpu_times.
  rewrite !fgets_first_line by assumption. reflexivity.
Qed.

Lemma linux_get_cpu_times_first_line_witness :
  Linux.get_cpu_times (Some stat_several_lines)
  = Linux.get_cpu_times (Some (stat_first_line ++ String newline "")).
Proof.
  apply (linux_get_cpu_times_first_line stat_first_line); [reflexivity |].
  vm_compute. lia.
Defined.

Lemma get_cpu_times_of_fields (content buf rest : string) (u n s i : Z) :
  fgets 256 content = Some (buf, rest) -> cpu_fields buf = [u; n; s; i] ->
  Linux.get_cpu_times (Some content) = Ok (sample u n s i).
Proof.
  intros F H. unfold Linux.get_cpu_times. rewrite F.
  pose proof (sscanf_cpu_line buf) as S.
  destruct (sscanf buf "cpu  %llu %llu %llu %llu") as [ret vals].
  destruct S as [Lt Ge]. destruct (ret <? 4) eqn:E.
  - pose proof (proj1 Lt eq_refl) as L. rewrite H in L. cbn in L. lia.
  - rewrite (Ge eq_refl), H. reflexivity.
Qed.

(** X14: the blanks written after [cpu] in the format are not required in
    the input: a line where a number follows [cpu] directly, as in the
    per-core lines [cpu0 ...], is accepted, and that number is stored as
    the user time. *)
Theorem linux_get_cpu_times_no_blank (content rest tail : string) (a b c d : Z) :
  in_u64 a -> in_u64 b -> in_u64 c -> in_u64 d -> no_digit_ahead tail ->
  fgets 256 content
  = Some ("cpu" ++ render_ull a ++ " " ++ render_ull b ++ " "
          ++ render_ull c ++ " " ++ render_ull d ++ tail, rest) ->
  Linux.get_cpu_times (Some content) = Ok (sample a b c d).
Proof.
  intros Ha Hb Hc Hd Ht F.
  apply (get_cpu_times_of_fields _ _ _ _ _ _ _ F).
  unfold cpu_fields.
  cbn [String.append after_cpu Ascii.eqb Bool.eqb andb].
  cbn [leading_unsigned].
  rewrite conv_ull_render by (auto using no_digit_ahead_space).
  rewrite conv_ull_space.
  rewrite conv_ull_render by (auto using no_digit_ahead_space).
  rewrite conv_ull_space.
  rewrite conv_ull_render by (auto using no_digit_ahead_space).
  rewrite conv_ull_space.
  rewrite conv_ull_render by assumption.
  reflexivity.
Qed.

Lemma linux_get_cpu_times_no_blank_witness :
  Linux.get_cpu_times (Some stat_per_core) = Ok (sample 0 1393 50 560).
Proof.
  apply (linux_get_cpu_times_no_blank stat_per_core ""
           (" 7000 12 0 3 0 0 0" ++ String newline "") 0 1393 50 560);
    try (unfold in_u64, two64; lia); reflexivity.
Defined.

(** * More on the report driver *)

Lemma calc_cpu_usage_same (p : platform) (s : cpu_times_t) :
  calc_cpu_usage p s s = d0.
Proof.
  rewrite calc_cpu_usage_unfold. unfold total_delta.
  rewrite Z.sub_diag. reflexivity.
Qed.

(** The estimate is a percentage when no counter decreases and the sum
    stays below [2^64]. *)
Lemma calc_cpu_usage_growth (p : platform) (prev curr : cpu_times_t) :
  valid_sample p prev -> valid_sample p curr ->
  non_decreasing p prev curr -> ticks p curr < two64 ->
  in_percent_range (calc_cpu_usage p prev curr) = true.
Proof.
  intros Vp Vc M T.
  destruct (non_decreasing_ticks p prev curr M) as [Ma Mi].
  unfold active_ticks in Ma.
  assert (Ip : 0 <= idle prev) by (destruct p; invert_fields; lia).
  assert (Np : 0 <= ticks p prev - idle prev) by (destruct p; invert_fields; lia).
  destruct (sums_exact p prev Vp ltac:(lia)) as [Ap Sp].
  destruct (sums_exact p curr Vc T) as [Ac Sc].
  rewrite calc_cpu_usage_unfold. unfold total_delta, active_delta.
  rewrite Ap, Sp, Ac, Sc.
  rewrite (u64_small (ticks p curr - ticks p prev)) by lia.
  rewrite (u64_small (ticks p curr - idle curr - (ticks p prev - idle prev)))
    by lia.
  unfold in_percent_range.
  destruct (ticks p curr - ticks p prev =? 0) eqn:E; [reflexivity |].
  apply Z.eqb_neq in E.
  destruct (percentage_in_range
              (ticks p curr - idle curr - (ticks p prev - idle prev))
              (ticks p curr - ticks p prev) ltac:(lia) ltac:(lia)) as [L U].
  rewrite L, U. reflexivity.
Qed.

(** X15: whatever happens, the two banner lines are written first; and the
    report carries a CPU usage line exactly when the exit status is 0. *)
Theorem main_banner_and_cpu_line {K : Type} `{B : Build K} (h : host K) :
  (exists rest, written h = (banner ++ rest)%list)
  /\ (exit_status h = 0 <-> exists pct, In (Stdout (CpuUsage pct)) (written h)).
Proof.
  unfold exit_status, written.
  destruct (get_cpu_times (before_sleep h)) as [prev | d1] eqn:E1.
  - destruct (get_cpu_times (after_sleep h)) as [curr | d2] eqn:E2.
    + rewrite (main_reports h prev curr E1 E2). cbn [fst snd].
      split; [eexists; reflexivity |].
      split; [intros _ | reflexivity].
      eexists. apply in_or_app. right. left. reflexivity.
    + rewrite (main_fails_second h prev d2 E1 E2). cbn [fst snd].
      split; [eexists; reflexivity |].
      split; [discriminate |]. intros [pct H]. cbn in H.
      repeat (destruct H as [H | H]; [discriminate H |]). contradiction.
  - rewrite (main_fails_first h d1 E1). cbn [fst snd].
    split; [eexists; reflexivity |].
    split; [discriminate |]. intros [pct H]. cbn in H.
    repeat (destruct H as [H | H]; [discriminate H |]). contradiction.
Qed.

(** X16: when the two samples the collector returns are equal, the run
    exits with 0 and reports a CPU usage of exactly [0.0]. *)
Theorem main_unchanged_counters {K : Type} `{B : Build K} (h : host K)
  (s : cpu_times_t) :
  get_cpu_times (before_sleep h) = Ok s ->
  get_cpu_times (after_sleep h) = Ok s ->
  exit_status h = 0 /\ In (Stdout (CpuUsage d0)) (written h).
Proof.
  intros E1 E2. unfold exit_status, written.
  rewrite (main_reports h s s E1 E2). cbn [fst snd].
  split; [reflexivity |].
  rewrite calc_cpu_usage_same.
  apply in_or_app. right. left. reflexivity.
Qed.

Lemma main_unchanged_counters_witness :
  get_cpu_times (before_sleep stalled_host) = Ok (sample 4705 150 1120 16250)
  /\ exit_status stalled_host = 0
  /\ In (Stdout (CpuUsage d0)) (written stalled_host).
Proof.
  split; [reflexivity |].
  apply (main_unchanged_counters stalled_host (sample 4705 150 1120 16250));
    reflexivity.
Defined.

Lemma leading_unsigned_range (k : nat) (s : string) :
  Forall in_u64 (leading_unsigned k s).
Proof.
  revert s. induction k as [| k IH]; intros s; [constructor |].
  cbn [leading_unsigned]. destruct (conv_ull s) as [v rest | |] eqn:E;
    try constructor; [eapply conv_ull_range; exact E | apply IH].
Qed.

Lemma cpu_fields_range (buf : string) : Forall in_u64 (cpu_fields buf).
Proof.
  unfold cpu_fields. destruct (after_cpu buf);
    [apply leading_unsigned_range | constructor].
Qed.

(** X17: on Linux, when both reads of /proc/stat offer four counters, none
    of the second below the first, and the second four sum to less than
    [2^64], the run exits with 0 and the CPU usage it reports is the
    estimate of the two samples, a percentage in [[0, 100]]. *)
Theorem linux_main_cpu_percentage
  (h : host linux_kernel) (c1 c2 b1 r1 b2 r2 : string)
  (u1 n1 s1 i1 u2 n2 s2 i2 : Z) :
  proc_stat (before_sleep h) = Some c1 -> proc_stat (after_sleep h) = Some c2 ->
  fgets 256 c1 = Some (b1, r1) -> fgets 256 c2 = Some (b2, r2) ->
  cpu_fields b1 = [u1; n1; s1; i1] -> cpu_fields b2 = [u2; n2; s2; i2] ->
  u1 <= u2 -> n1 <= n2 -> s1 <= s2 -> i1 <= i2 ->
  u2 + n2 + s2 + i2 < two64 ->
  let pct := calc_cpu_usage Linux (sample u1 n1 s1 i1) (sample u2 n2 s2 i2) in
  exit_status h = 0
  /\ In (Stdout (CpuUsage pct)) (written h)
  /\ in_percent_range pct = true.
Proof.
  intros P1 P2 F1 F2 C1 C2 Hu Hn Hs Hi T. cbv zeta.
  assert (E1 : get_cpu_times (before_sleep h) = Ok (sample u1 n1 s1 i1)).
  { cbn [get_cpu_times linux_build]. rewrite P1.
    exact (get_cpu_times_of_fields _ _ _ _ _ _ _ F1 C1). }
  assert (E2 : get_cpu_times (after_sleep h) = Ok (sample u2 n2 s2 i2)).
  { cbn [get_cpu_times linux_build]. rewrite P2.
    exact (get_cpu_times_of_fields _ _ _ _ _ _ _ F2 C2). }
  unfold exit_status, written. rewrite (main_reports h _ _ E1 E2).
  cbn [fst snd]. split; [reflexivity |]. split.
  - apply in_or_app. right. left. reflexivity.
  - pose proof (cpu_fields_range b1) as R1. rewrite C1 in R1.
    pose proof (cpu_fields_range b2) as R2. rewrite C2 in R2.
    apply calc_cpu_usage_growth.
    + exact R1.
    + exact R2.
    + repeat constructor; assumption.
    + unfold ticks, fields, sample. cbn [fold_right user nice system idle]. lia.
Qed.

Lemma linux_main_cpu_percentage_witness :
  exit_status busy_host = 0
  /\ In (Stdout (CpuUsage (calc_cpu_usage Linux (sample 4705 150 1120 16250)
                             (sample 4745 150 1130 16300))))
        (written busy_host)
  /\ in_percent_range (calc_cpu_usage Linux (sample 4705 150 1120 16250)
                         (sample 4745 150 1130 16300)) = true.
Proof.
  apply (linux_main_cpu_percentage busy_host stat_complete stat_later
           stat_complete "" stat_later "");
    try reflexivity; try lia.
Defined.

(** X18: on FreeBSD, when at both samples the queries succeed but the
    reported length holds no whole core, the run does not fail: it exits
    with 0 and reports a CPU usage of exactly [0.0]. *)
Theorem freebsd_main_no_core
  (h : host freebsd_kernel) (len1 len2 : Z) (cp1 cp2 : list Z) :
  FreeBSD.size_query (kern_cp_times (before_sleep h)) = Some len1 ->
  FreeBSD.malloc_ok (kern_cp_times (before_sleep h)) = true ->
  FreeBSD.fill_query (kern_cp_times (before_sleep h)) = Some cp1 ->
  FreeBSD.num_cpus_of len1 <= 0 ->
  FreeBSD.size_query (kern_cp_times (after_sleep h)) = Some len2 ->
  FreeBSD.malloc_ok (kern_cp_times (after_sleep h)) = true ->
  FreeBSD.fill_query (kern_cp_times (after_sleep h)) = Some cp2 ->
  FreeBSD.num_cpus_of len2 <= 0 ->
  exit_status h = 0 /\ In (Stdout (CpuUsage d0)) (written h).
Proof.
  intros S1 M1 F1 N1 S2 M2 F2 N2.
  assert (Z0 : forall len block cp, FreeBSD.num_cpus_of len <= 0 ->
               FreeBSD.sum_cores (Z.to_nat (FreeBSD.num_cpus_of len)) 0 block cp
                 FreeBSD.no_ticks = FreeBSD.no_ticks).
  { intros len block cp N.
    destruct (FreeBSD.num_cpus_of len); try lia; reflexivity. }
  assert (E1 : get_cpu_times (before_sleep h) = Ok FreeBSD.no_ticks).
  { cbn [get_cpu_times freebsd_build]. unfold FreeBSD.get_cpu_times.
    rewrite S1, M1, F1. cbn [negb]. rewrite Z0 by exact N1. reflexivity. }
  assert (E2 : get_cpu_times (after_sleep h) = Ok FreeBSD.no_ticks).
  { cbn [get_cpu_times freebsd_build]. unfold FreeBSD.get_cpu_times.
    rewrite S2, M2, F2. cbn [negb]. rewrite Z0 by exact N2. reflexivity. }
  unfold exit_status, written. rewrite (main_reports h _ _ E1 E2).
  cbn [fst snd]. split; [reflexivity |].
  rewrite calc_cpu_usage_same. apply in_or_app. right. left. reflexivity.
Qed.

Lemma freebsd_main_no_core_witness :
  exit_status coreless_host = 0 /\ In (Stdout (CpuUsage d0)) (written coreless_host).
Proof.
  apply (freebsd_main_no_core coreless_host 0 0 [] []); try reflexivity;
    vm_compute; discriminate.
Defined.

(** * Unit conversions *)

(** Dividing a canonical double by [1024.0] lowers its exponent by ten and
    keeps its mantissa: no rounding takes place. *)
Lemma ddiv_1024_exact (x : double) (m e : Z) :
  canonical x m e -> -200 <= e <= 200 ->
  canonical (ddiv x d1024) m (e - 10).
Proof.
  intros [-> Hm] L.
  assert (Pm : 0 < m) by (unfold two52 in *; lia).
  split; [| exact Hm].
  unfold ddiv, d1024, SFdiv, SFdiv_core_binary. cbn [xorb Zdigits2].
  rewrite canonical_digits by assumption.
  change (Z.pos (digits2_pos 4503599627370496)) with 53.
  unfold fexp, emin. rewrite Z.max_l by lia. rewrite Z.min_l by lia.
  replace (e - -42 - (53 + e - (53 + -42) - 53)) with 53 by lia.
  rewrite Z.shiftl_mul_pow2 by lia. rewrite Z2Pos.id by lia.
  assert (E : Z.div_eucl (m * 2 ^ 53) 4503599627370496 = (2 * m, 0)).
  { rewrite (surjective_pairing (Z.div_eucl _ _)).
    change (fst (Z.div_eucl ?a ?b)) with (a / b).
    change (snd (Z.div_eucl ?a ?b)) with (a mod b).
    replace (m * 2 ^ 53) with (2 * m * 4503599627370496) by lia.
    rewrite Z.div_mul, Z.mod_mul by lia. reflexivity. }
  rewrite E, new_location_zero.
  destruct (2 * m) as [| q | q] eqn:Eq; try lia.
  assert (Hd : Zpos (digits2_pos q) = 53 + 1).
  { apply digits2_pos_unique. change (2 ^ (53 + 1 - 1)) with two53.
    change (2 ^ (53 + 1)) with (2 * two53). unfold two52, two53 in *. lia. }
  rewrite (binary_round_aux_normal q _ 1 loc_Exact Hd) by lia.
  change (Z.to_nat 1) with 1%nat.
  rewrite rounded_exact_S by lia. rewrite <- Eq.
  change (2 ^ Z.of_nat 0) with 1. change (2 ^ (Z.of_nat 0 + 1)) with 2.
  rewrite Z.div_1_r, Z.odd_mul. cbn [Z.odd andb Z.b2z].
  rewrite Z.mul_comm, Z.div_mul, Z.add_0_r by lia.
  unfold normal.
  replace (m <? two53) with true by (symmetry; apply Z.ltb_lt; lia).
  f_equal. lia.
Qed.

(** The value of a double whose exponent was lowered by [k]. *)
Lemma Q_of_scaled (m e b k : Z) :
  two52 <= m -> e <= 0 -> 0 < k -> 0 <= e + 52 ->
  m * 2 ^ (e + 52) = b * 2 ^ 52 ->
  exists q, Q_of_double (S754_finite false (Z.to_pos m) (e - k)) = Some q
            /\ (q == b # Z.to_pos (2 ^ k))%Q.
Proof.
  intros Hm He Hk H52 V.
  assert (Pm : 0 < m) by (unfold two52 in *; lia).
  cbn [Q_of_double]. destruct (e - k) as [| p | p] eqn:Ep; try lia.
  eexists. split; [reflexivity |].
  unfold Qeq. cbn [Qnum Qden].
  rewrite Z2Pos.id by lia.
  rewrite Pos2Z.inj_pow, Z2Pos.id by (apply Z.pow_pos_nonneg; lia).
  assert (Epk : Zpos p = k + - e) by lia. rewrite Epk.
  rewrite (Z.pow_add_r 2 k (- e)) by lia.
  assert (E52 : 2 ^ 52 = 2 ^ (e + 52) * 2 ^ (- e))
    by (rewrite <- Z.pow_add_r by lia; f_equal; lia).
  rewrite E52 in V.
  assert (P1 : 0 < 2 ^ (e + 52)) by (apply Z.pow_pos_nonneg; lia).
  assert (Em : m = b * 2 ^ (- e)) by nia.
  rewrite Em. ring.
Qed.

(** An integer below [2^53] converts to a double without rounding. *)
Lemma double_of_Z_small (p : positive) :
  Zpos p < two53 ->
  exists m e, canonical (double_of_Z (Zpos p)) m e
    /\ -52 <= e <= 0 /\ m * 2 ^ (e + 52) = Zpos p * 2 ^ 52.
Proof.
  intros H.
  destruct (double_of_Z_canonical p ltac:(unfold two53, two64 in *; lia))
    as (m & e & C & E & V).
  assert (D : dropped p = 0).
  { unfold dropped. pose proof (digits2_pos_bounds p) as B.
    destruct (Z_le_gt_dec (Zpos (digits2_pos p)) 53) as [|G]; [lia |].
    assert (2 ^ 53 <= 2 ^ (Zpos (digits2_pos p) - 1))
      by (apply Z.pow_le_mono_r; lia).
    unfold two53 in H. lia. }
  assert (N : nearest p = Zpos p).
  { unfold nearest. rewrite D. cbn [Z.to_nat]. rewrite rounded_exact_0.
    change (2 ^ 0) with 1. lia. }
  rewrite N in V. exists m, e. split; [exact C |]. split; [| exact V].
  split; [lia |].
  destruct C as [_ Hm].
  destruct (Z_le_gt_dec e 0) as [| G]; [assumption | exfalso].
  assert (2 ^ 53 <= 2 ^ (e + 52)) by (apply Z.pow_le_mono_r; lia).
  unfold two52, two53 in *. nia.
Qed.

(** X19: the conversions to gigabytes are exact for every amount below
    [2^53]: the three (or two) divisions by [1024.0] only lower the
    exponent, so the figure is the byte count over [2^30] (the kilobyte
    count over [2^20]) with no rounding error. *)
Theorem gigabytes_exact (b : Z) :
  0 < b < two53 ->
  (exists q, Q_of_double (gigabytes b) = Some q /\ (q == b # 1073741824)%Q)
  /\ (exists q, Q_of_double (kb_to_gb b) = Some q /\ (q == b # 1048576)%Q).
Proof.
  intros H. destruct b as [| p | p]; try lia.
  destruct (double_of_Z_small p ltac:(lia)) as (m & e & C & E & V).
  pose proof (ddiv_1024_exact _ _ _ C ltac:(lia)) as C1.
  pose proof (ddiv_1024_exact _ _ _ C1 ltac:(lia)) as C2.
  pose proof (ddiv_1024_exact _ _ _ C2 ltac:(lia)) as C3.
  split.
  - unfold gigabytes. destruct C3 as [-> Hm].
    replace (e - 10 - 10 - 10) with (e - 30) by lia.
    apply (Q_of_scaled m e (Zpos p) 30); lia.
  - unfold kb_to_gb. destruct C2 as [-> Hm].
    replace (e - 10 - 10) with (e - 20) by lia.
    apply (Q_of_scaled m e (Zpos p) 20); lia.
Qed.

Lemma gigabytes_exact_witness :
  (exists q, Q_of_double (gigabytes 8589934592) = Some q
             /\ (q == 8589934592 # 1073741824)%Q)
  /\ (exists q, Q_of_double (kb_to_gb 8589934592) = Some q
                /\ (q == 8589934592 # 1048576)%Q).
Proof. apply gigabytes_exact. unfold two53. lia. Defined.

(** * What the /proc/meminfo scan does not check *)

Lemma has_newline_append (s t : string) :
  has_newline (s ++ t) = has_newline s || has_newline t.
Proof.
  induction s as [| c s IH]; [reflexivity |].
  cbn [String.append has_newline]. rewrite IH, orb_assoc. reflexivity.
Qed.

Lemma digit_char_not_newline (d : Z) :
  0 <= d <= 9 -> Ascii.eqb (digit_char d) newline = false.
Proof.
  intros H.
  assert (C : d = 0 \/ d = 1 \/ d = 2 \/ d = 3 \/ d = 4 \/ d = 5 \/ d = 6
              \/ d = 7 \/ d = 8 \/ d = 9) by lia.
  repeat (destruct C as [-> | C]; [reflexivity |]). subst. reflexivity.
Qed.

(** A rendered number has no newline and at most [fuel] characters. *)
Lemma render_digits_shape (fuel : nat) (n : Z) (acc : string) :
  has_newline (render_digits fuel n acc) = has_newline acc
  /\ (String.length (render_digits fuel n acc) <= fuel + String.length acc)%nat.
Proof.
  revert n acc. induction fuel as [| fuel IH]; intros n acc.
  - split; [reflexivity | cbn; lia].
  - cbn [render_digits].
    assert (D : 0 <= n mod 10 <= 9) by (pose proof (Z.mod_pos_bound n 10); lia).
    pose proof (digit_char_not_newline _ D) as Nl.
    destruct (n <? 10).
    + cbn [has_newline String.length]. rewrite Nl. split; [reflexivity | lia].
    + destruct (IH (n / 10) (String (digit_char (n mod 10)) acc)) as [N L].
      rewrite N. cbn [has_newline String.length] in *. rewrite Nl.
      split; [reflexivity | lia].
Qed.

Lemma fgets_chars_whole (room : nat) (s : string) :
  has_newline s = false -> (String.length s <= room)%nat ->
  fgets_chars room s = (s, "").
Proof.
  revert room. induction s as [| c s IH]; intros room N L.
  - destruct room; reflexivity.
  - destruct room as [| room]; [cbn in L; lia |].
    cbn [has_newline] in N. apply orb_false_iff in N. destruct N as [Nc Ns].
    cbn [fgets_chars]. rewrite Nc, IH by (cbn [String.length] in L; auto; lia).
    reflexivity.
Qed.

(** A file that is one unterminated line of at most 255 characters. *)
Lemma lines_of_single (s : string) :
  s <> "" -> has_newline s = false -> (String.length s <= 255)%nat ->
  lines_of s = [s].
Proof.
  intros Ne N L. unfold lines_of.
  destruct (String.length s) as [| k] eqn:E;
    [destruct s; [contradiction | discriminate] |].
  rewrite fgets_lines_S.
  assert (F : fgets 256 s = Some (s, "")).
  { assert (F0 : fgets 256 s = Some (fgets_chars (256 - 1) s))
      by (destruct s; [contradiction | reflexivity]).
    rewrite F0. f_equal. apply fgets_chars_whole; [exact N | lia]. }
  rewrite F. f_equal. destruct k; reflexivity.
Qed.

Lemma run_directives_lit (c : ascii) (ds : list directive) (s : string)
  (vals : list Z) :
  run_directives (Lit c :: ds) (String c s) vals = run_directives ds s vals.
Proof. cbn [run_directives]. rewrite Ascii.eqb_refl. reflexivity. Qed.

Lemma run_directives_space (ds : list directive) (s : string) (vals : list Z) :
  run_directives (Space :: ds) s vals = run_directives ds (skip_space s) vals.
Proof. reflexivity. Qed.

Lemma run_directives_conv (ds : list directive) (s rest : string) (v : Z)
  (vals : list Z) :
  conv_ull s = Converted v rest ->
  run_directives (ConvU :: ds) s vals = run_directives ds rest (vals ++ [v]).
Proof. intros E. cbn [run_directives]. rewrite E. reflexivity. Qed.

(** After the conversion nothing can change the count of 1. *)
Lemma scan_total_line (n : Z) (tail : string) :
  in_u64 n -> no_digit_ahead tail ->
  scan_key "MemTotal: %lu kB" ("MemTotal:" ++ render_ull n ++ tail) = Some n.
Proof.
  intros Hn Ht. unfold scan_key, sscanf.
  change (directives_of "MemTotal: %lu kB")
    with [Lit "M"; Lit "e"; Lit "m"; Lit "T"; Lit "o"; Lit "t"; Lit "a";
          Lit "l"; Lit ":"; Space; ConvU; Space; Lit "k"; Lit "B"].
  cbn [String.append]. rewrite !run_directives_lit, run_directives_space.
  rewrite (run_directives_conv _ _ tail n)
    by (rewrite conv_ull_skip_space; apply conv_ull_render; assumption).
  cbn [app run_directives].
  destruct (skip_space tail) as [| c1 r1]; [reflexivity |].
  destruct (Ascii.eqb "k" c1); [| reflexivity].
  destruct r1 as [| c2 r2]; [reflexivity |].
  destruct (Ascii.eqb "B" c2); reflexivity.
Qed.

(** X20: neither the blank after [MemTotal:] nor the [kB] unit is checked:
    a file made of the single line [MemTotal:], a non-zero number and any
    text that does not start with a digit is accepted, the number being
    taken as kilobytes (and, no MemAvailable line being there, as fully
    used). *)
Theorem linux_memory_unit_unchecked (n : Z) (tail : string) :
  in_u64 n -> n <> 0 -> no_digit_ahead tail ->
  has_newline tail = false -> (String.length tail <= 200)%nat ->
  Linux.get_memory_usage (Some ("MemTotal:" ++ render_ull n ++ tail))
  = Ok {| used_gb := kb_to_gb n; total_gb := kb_to_gb n; percent_used := d100 |}.
Proof.
  intros Hn Nz Ht Nl Len.
  set (content := "MemTotal:" ++ render_ull n ++ tail).
  destruct (render_digits_shape 20 n "") as [Rn Rl]. fold (render_ull n) in Rn, Rl.
  assert (L : lines_of content = [content]).
  { apply lines_of_single.
    - subst content. discriminate.
    - subst content. rewrite !has_newline_append, Rn, Nl. reflexivity.
    - subst content. rewrite !length_append. cbn [String.length] in *. lia. }
  pose proof (scan_total_line n tail Hn Ht) as T. fold content in T.
  unfold Linux.get_memory_usage.
  rewrite meminfo_loop_last_values, L. cbn [last_value].
  rewrite T, (scan_key_exclusive content n T). cbn [value_or_zero].
  destruct (n =? 0) eqn:E; [apply Z.eqb_eq in E; contradiction |].
  rewrite Z.sub_0_r, u64_small by exact Hn.
  rewrite whole_is_hundred by (unfold in_u64 in Hn; lia). reflexivity.
Qed.

Lemma linux_memory_unit_unchecked_witness :
  Linux.get_memory_usage (Some "MemTotal:16 MB")
  = Ok {| used_gb := kb_to_gb 16; total_gb := kb_to_gb 16; percent_used := d100 |}.
Proof.
  apply (linux_memory_unit_unchecked 16 " MB"); try reflexivity.
  - unfold in_u64, two64. lia.
  - discriminate.
  - cbn. lia.
Defined.
